(** * SessionSourceCpp: the sourceCpp build session and its diagnostics pipeline

    A shallow embedding of [src/cpp/session/modules/build/SessionSourceCpp.cpp]:
    the [SourceCppContext] singleton, the PATH patch that brackets a build,
    console capture, the delayed completion handler and the completed event. *)

From Stdlib Require Import ZArith Ascii String List Bool Lia.
From stdpp Require Import base option list strings gmap.

(** ** Strings as the code uses them *)

(** [std::string::empty]. *)
Definition str_empty (s : string) : bool :=
  match s with
  | EmptyString => true
  | String _ _ => false
  end.

(** [boost::algorithm::ends_with input test]: some tail of [input] is [test]. *)
Fixpoint ends_with (input test : string) : bool :=
  String.eqb input test ||
  match input with
  | EmptyString => false
  | String _ rest => ends_with rest test
  end.

Definition newline : string := String (ascii_of_nat 10) EmptyString.

(** ** Data *)

(** [core::FilePath], kept as its absolute path; [FilePath()] is the empty path. *)
Definition FilePath := string.
Definition emptyFilePath : FilePath := "".

(** [module_context::ConsoleOutputType]. *)
Inductive ConsoleOutputType := ConsoleOutputNormal | ConsoleOutputError.

(** [BuildOutput(type, output)] of SessionBuildUtils.hpp. *)
Record BuildOutput := mkBuildOutput { outputType : Z; outputText : string }.

(** [CompileError] of SessionBuildErrors.hpp, with the fields the completed
    payload shows. *)
Record CompileError := mkCompileError {
  errPath : string;
  errLine : Z;
  errColumn : Z;
  errSeverity : string;
  errMessage : string
}.

(** [struct SourceCppState]. The JSON arrays hold the encoded outputs and
    errors; the encoders are kept abstract and the arrays are modelled by the
    values they encode. *)
Record SourceCppState := mkSourceCppState {
  targetFile : string;
  errors : list CompileError;
  outputs : list BuildOutput
}.

Definition emptySourceCppState : SourceCppState :=
  {| targetFile := ""; errors := []; outputs := [] |}.

(** [SourceCppState::addOutput]: push_back on [outputs]. *)
Definition addOutput (type : Z) (output : string) (s : SourceCppState)
  : SourceCppState :=
  {| targetFile := targetFile s;
     errors := errors s;
     outputs := outputs s ++ [mkBuildOutput type output] |}.

(** The two client events of this module, the second with [asJson()] of the state. *)
Inductive ClientEvent :=
| kSourceCppStarted
| kSourceCppCompleted (data : SourceCppState).

(** The private fields of [class SourceCppContext]. *)
Record SourceCppContext := mkContext {
  sourceFile_ : FilePath;
  showOutput_ : bool;
  fromCode_ : bool;
  consoleOutputBuffer_ : string;
  consoleErrorBuffer_ : string;
  previousPath_ : string;
  rToolsWarning_ : string
}.

(** What the session does to the outside, in the order it happens. *)
Inductive Effect :=
| Setenv (name value : string)
| EnqueClientEvent (event : ClientEvent)
| ConsoleWriteError (message : string).

(** The process as the session sees it: the singleton, the process
    environment, how many slots of the singleton are connected to
    [events().onConsoleOutput], the delayed work not yet run, and the log of
    effects, oldest first. *)
Record World := mkWorld {
  context : SourceCppContext;
  environment : gmap string string;
  slots : nat;
  delayedWork : list (Z * (bool * string));
  effects : list Effect
}.

(** ** The collaborators that are not part of this file

    [_WIN32], the Rtools path fix-up of SessionBuildEnvironment.hpp (its two
    pointer arguments are returned next to its result), the gcc error parser
    of SessionBuildErrors.hpp, the two path helpers, the two output kinds, and
    whether [module_context::consoleWriteError] fires [onConsoleOutput] for
    what it writes. *)
Class Collaborators := {
  win32 : bool;
  addRtoolsToPathIfNecessary : string -> string -> bool * (string * string);
  gccErrorParser : FilePath -> string -> list CompileError;
  createAliasedPath : FilePath -> string;
  parent : FilePath -> FilePath;
  kBuildOutputNormal : Z;
  kBuildOutputError : Z;
  consoleWriteErrorFires : bool
}.

(** ** A small state monad over [World] *)

Definition M (A : Type) : Type := World -> A * World.

Definition ret {A} (a : A) : M A := fun w => (a, w).

Definition bind {A B} (m : M A) (k : A -> M B) : M B :=
  fun w => let (a, w') := m w in k a w'.

Notation "x <- m ;; k" := (bind m (fun x => k))
  (at level 100, m at next level, right associativity).
Notation "m ;; k" := (bind m (fun _ => k))
  (at level 100, right associativity).

Definition when (b : bool) (m : M unit) : M unit := if b then m else ret tt.

Definition exec {A} (m : M A) (w : World) : World := snd (m w).

Definition getContext : M SourceCppContext := fun w => (context w, w).

Definition putContext (c : SourceCppContext) : M unit := fun w =>
  (tt, {| context := c; environment := environment w; slots := slots w;
          delayedWork := delayedWork w; effects := effects w |}).

Definition emit (e : Effect) : M unit := fun w =>
  (tt, {| context := context w; environment := environment w; slots := slots w;
          delayedWork := delayedWork w; effects := effects w ++ [e] |}).

(** [core::system::getenv]: the empty string for a variable that is not set. *)
Definition getenv (name : string) : M string := fun w =>
  (default "" (environment w !! name), w).

(** [core::system::setenv]. *)
Definition setenv (name value : string) : M unit := fun w =>
  (tt, {| context := context w; environment := <[name := value]> (environment w);
          slots := slots w; delayedWork := delayedWork w;
          effects := effects w ++ [Setenv name value] |}).

Definition modify (f : SourceCppContext -> SourceCppContext) : M unit :=
  c <- getContext ;; putContext (f c).

(** Assignments to one field of the singleton. *)
Definition set_sourceFile (v : FilePath) (c : SourceCppContext) :=
  mkContext v (showOutput_ c) (fromCode_ c) (consoleOutputBuffer_ c)
            (consoleErrorBuffer_ c) (previousPath_ c) (rToolsWarning_ c).
Definition set_showOutput (v : bool) (c : SourceCppContext) :=
  mkContext (sourceFile_ c) v (fromCode_ c) (consoleOutputBuffer_ c)
            (consoleErrorBuffer_ c) (previousPath_ c) (rToolsWarning_ c).
Definition set_fromCode (v : bool) (c : SourceCppContext) :=
  mkContext (sourceFile_ c) (showOutput_ c) v (consoleOutputBuffer_ c)
            (consoleErrorBuffer_ c) (previousPath_ c) (rToolsWarning_ c).
Definition set_consoleOutputBuffer (v : string) (c : SourceCppContext) :=
  mkContext (sourceFile_ c) (showOutput_ c) (fromCode_ c) v
            (consoleErrorBuffer_ c) (previousPath_ c) (rToolsWarning_ c).
Definition set_consoleErrorBuffer (v : string) (c : SourceCppContext) :=
  mkContext (sourceFile_ c) (showOutput_ c) (fromCode_ c) (consoleOutputBuffer_ c)
            v (previousPath_ c) (rToolsWarning_ c).
Definition set_previousPath (v : string) (c : SourceCppContext) :=
  mkContext (sourceFile_ c) (showOutput_ c) (fromCode_ c) (consoleOutputBuffer_ c)
            (consoleErrorBuffer_ c) v (rToolsWarning_ c).
Definition set_rToolsWarning (v : string) (c : SourceCppContext) :=
  mkContext (sourceFile_ c) (showOutput_ c) (fromCode_ c) (consoleOutputBuffer_ c)
            (consoleErrorBuffer_ c) (previousPath_ c) v.

(** [events().onConsoleOutput.connect(bind(&onConsoleOutput, this, _1, _2))]:
    one more slot of the singleton on the signal. *)
Definition connect : M unit := fun w =>
  (tt, {| context := context w; environment := environment w; slots := S (slots w);
          delayedWork := delayedWork w; effects := effects w |}).

(** [events().onConsoleOutput.disconnect(...)]: every slot equal to the bound
    member function is removed; none connected is fine. *)
Definition disconnect : M unit := fun w =>
  (tt, {| context := context w; environment := environment w; slots := 0;
          delayedWork := delayedWork w; effects := effects w |}).

(** [module_context::scheduleDelayedWork(period, work, idleOnly = false)]. *)
Definition scheduleDelayedWork (period : Z) (work : bool * string) : M unit :=
  fun w =>
  (tt, {| context := context w; environment := environment w; slots := slots w;
          delayedWork := delayedWork w ++ [(period, work)]; effects := effects w |}).

Fixpoint repeatM (n : nat) (m : M unit) : M unit :=
  match n with
  | O => ret tt
  | S n' => m ;; repeatM n' m
  end.

(** The value of PATH that [getenv] gives in a world. *)
Definition pathOf (w : World) : string := default "" (environment w !! "PATH").

(** ** The session *)

Section Session.
Context {host : Collaborators}.

(** [enqueSourceCppStarted]. *)
Definition enqueSourceCppStarted : M unit :=
  emit (EnqueClientEvent kSourceCppStarted).

(** [enqueSourceCppCompleted]. *)
Definition enqueSourceCppCompleted (sourceFile : FilePath)
    (output errorOutput : string) : M unit :=
  let sourceCppState := emptySourceCppState in
  let sourceCppState :=
    {| targetFile := createAliasedPath sourceFile;
       errors := errors sourceCppState;
       outputs := outputs sourceCppState |} in
  let sourceCppState := addOutput kBuildOutputNormal output sourceCppState in
  let sourceCppState := addOutput kBuildOutputError errorOutput sourceCppState in
  let allOutput := output +:+ newline +:+ errorOutput in
  let errorParser := gccErrorParser (parent sourceFile) in
  let errs := errorParser allOutput in
  let sourceCppState :=
    {| targetFile := targetFile sourceCppState;
       errors := errs;
       outputs := outputs sourceCppState |} in
  emit (EnqueClientEvent (kSourceCppCompleted sourceCppState)).

(** What [onConsoleOutput] stores for a chunk: under [_WIN32] a chunk that
    does not end with a newline gets one. *)
Definition storedChunk (output : string) : string :=
  if win32 && negb (ends_with output newline)
  then output +:+ newline
  else output.

(** [SourceCppContext::onConsoleOutput]. *)
Definition onConsoleOutput (type : ConsoleOutputType) (output : string) : M unit :=
  let output := storedChunk output in
  match type with
  | ConsoleOutputNormal =>
      modify (fun c => set_consoleOutputBuffer (consoleOutputBuffer_ c +:+ output) c)
  | ConsoleOutputError =>
      modify (fun c => set_consoleErrorBuffer (consoleErrorBuffer_ c +:+ output) c)
  end.

(** Firing [events().onConsoleOutput]: every connected slot of the singleton
    runs. *)
Definition fireConsoleOutput (type : ConsoleOutputType) (output : string) : M unit :=
  fun w => repeatM (slots w) (onConsoleOutput type output) w.

(** [module_context::consoleWriteError]: the text goes to the error stream of
    the console; the comment in [handleBuildComplete] says that such output
    reaches [consoleErrorBuffer_], which is left to [consoleWriteErrorFires]. *)
Definition consoleWriteError (message : string) : M unit :=
  emit (ConsoleWriteError message) ;;
  when consoleWriteErrorFires (fireConsoleOutput ConsoleOutputError message).

(** [SourceCppContext::reset]. *)
Definition reset : M unit :=
  modify (set_sourceFile emptyFilePath) ;;
  modify (set_showOutput false) ;;
  modify (set_fromCode false) ;;
  modify (set_consoleOutputBuffer "") ;;
  modify (set_consoleErrorBuffer "") ;;
  disconnect ;;
  modify (set_previousPath "") ;;
  modify (set_rToolsWarning "").

(** [SourceCppContext::onBuild]. *)
Definition onBuild (sourceFile : FilePath) (fromCode showOutput : bool) : M bool :=
  reset ;;
  modify (set_sourceFile sourceFile) ;;
  modify (set_fromCode fromCode) ;;
  modify (set_showOutput showOutput) ;;
  path <- getenv "PATH" ;;
  c <- getContext ;;
  let fixup := addRtoolsToPathIfNecessary path (rToolsWarning_ c) in
  let newPath := fst (snd fixup) in
  modify (set_rToolsWarning (snd (snd fixup))) ;;
  when (fst fixup)
    (modify (set_previousPath path) ;;
     setenv "PATH" newPath) ;;
  connect ;;
  enqueSourceCppStarted ;;
  ret true.

(** [SourceCppContext::onBuildComplete]. *)
Definition onBuildComplete (succeeded : bool) (output : string) : M unit :=
  scheduleDelayedWork 200 (succeeded, output).

(** [SourceCppContext::handleBuildComplete]. *)
Definition handleBuildComplete (succeeded : bool) (output : string) : M unit :=
  c <- getContext ;;
  when (negb (str_empty (previousPath_ c)))
    (setenv "PATH" (previousPath_ c)) ;;
  c <- getContext ;;
  let buildOutput :=
    if negb succeeded || showOutput_ c then consoleOutputBuffer_ c else output in
  when (negb succeeded && negb (str_empty (rToolsWarning_ c)))
    (consoleWriteError (rToolsWarning_ c)) ;;
  c <- getContext ;;
  when (negb (fromCode_ c))
    (enqueSourceCppCompleted (sourceFile_ c) buildOutput (consoleErrorBuffer_ c)) ;;
  reset.

(** The timer of the event loop runs the oldest delayed work, once. *)
Definition runDelayedWork : M unit := fun w =>
  match delayedWork w with
  | [] => (tt, w)
  | (_, (succeeded, output)) :: rest =>
      handleBuildComplete succeeded output
        {| context := context w; environment := environment w; slots := slots w;
           delayedWork := rest; effects := effects w |}
  end.

(** What the outside can do to the session, all on the one event loop. *)
Inductive Call :=
| CallOnBuild (sourceFile : FilePath) (fromCode showOutput : bool)
| CallOnBuildComplete (succeeded : bool) (output : string)
| ConsoleOutput (type : ConsoleOutputType) (output : string)
| TimerFires.

Definition step (c : Call) : M unit :=
  match c with
  | CallOnBuild f fromCode showOutput => _ <- onBuild f fromCode showOutput ;; ret tt
  | CallOnBuildComplete succeeded output => onBuildComplete succeeded output
  | ConsoleOutput type output => fireConsoleOutput type output
  | TimerFires => runDelayedWork
  end.

Fixpoint run (cs : list Call) : M unit :=
  match cs with
  | [] => ret tt
  | c :: rest => step c ;; run rest
  end.

(** What a run of console chunks leaves in the buffer of one channel when
    one slot is connected. *)
Fixpoint captured (type : ConsoleOutputType)
    (chunks : list (ConsoleOutputType * string)) : string :=
  match chunks with
  | [] => ""
  | (ConsoleOutputNormal, output) :: rest =>
      match type with
      | ConsoleOutputNormal => storedChunk output +:+ captured type rest
      | ConsoleOutputError => captured type rest
      end
  | (ConsoleOutputError, output) :: rest =>
      match type with
      | ConsoleOutputNormal => captured type rest
      | ConsoleOutputError => storedChunk output +:+ captured type rest
      end
  end.

Definition deliver (chunks : list (ConsoleOutputType * string)) : list Call :=
  map (fun chunk => ConsoleOutput (fst chunk) (snd chunk)) chunks.

(** The PATH fix-up is in force: the saved value is one that the fix-up
    changes, and PATH is what the fix-up made of it. *)
Definition patchInForce (w : World) : Prop :=
  let fixup := addRtoolsToPathIfNecessary (previousPath_ (context w)) "" in
  fst fixup = true /\ pathOf w = fst (snd fixup).

End Session.

(** The process at start: [static SourceCppContext instance], whose strings
    are empty and whose two flags, which the constructor does not set, are
    zero as for every object of static storage; nothing is connected,
    scheduled or emitted. *)
Definition idleContext : SourceCppContext :=
  mkContext emptyFilePath false false "" "" "" "".

Definition initialWorld (env : gmap string string) : World :=
  {| context := idleContext; environment := env; slots := 0;
     delayedWork := []; effects := [] |}.

(** ** Observing a run *)

(** The same world with another singleton. *)
Definition withContext (c : SourceCppContext) (w : World) : World :=
  {| context := c; environment := environment w; slots := slots w;
     delayedWork := delayedWork w; effects := effects w |}.

(** The buffer of a channel, and a text appended to it. *)
Definition bufferOf (type : ConsoleOutputType) (c : SourceCppContext) : string :=
  match type with
  | ConsoleOutputNormal => consoleOutputBuffer_ c
  | ConsoleOutputError => consoleErrorBuffer_ c
  end.

Definition appendTo (type : ConsoleOutputType) (text : string)
    (c : SourceCppContext) : SourceCppContext :=
  match type with
  | ConsoleOutputNormal => set_consoleOutputBuffer (consoleOutputBuffer_ c +:+ text) c
  | ConsoleOutputError => set_consoleErrorBuffer (consoleErrorBuffer_ c +:+ text) c
  end.

Fixpoint repeated (n : nat) (text : string) : string :=
  match n with
  | O => ""
  | S n' => text +:+ repeated n' text
  end.

(** The effects a computation adds to the log of [w]. *)
Definition emittedBy {A} (m : M A) (w : World) : list Effect :=
  drop (length (effects w)) (effects (exec m w)).

Definition completedOf (es : list Effect) : list SourceCppState :=
  omap (fun e => match e with
                 | EnqueClientEvent (kSourceCppCompleted data) => Some data
                 | _ => None
                 end) es.

Definition writtenErrors (es : list Effect) : list string :=
  omap (fun e => match e with ConsoleWriteError m => Some m | _ => None end) es.

Definition setenvsOf (es : list Effect) : list (string * string) :=
  omap (fun e => match e with Setenv n v => Some (n, v) | _ => None end) es.

(** ** The gcc dialect of the diagnostics parser *)

Module Gcc.

Definition colon : ascii := ascii_of_nat 58.
Definition slash : ascii := ascii_of_nat 47.

Definition is_digit (c : ascii) : bool :=
  (48 <=? nat_of_ascii c)%nat && (nat_of_ascii c <=? 57)%nat.

(** The leading digits of a string and what follows them. *)
Fixpoint take_digits (s : string) : string * string :=
  match s with
  | EmptyString => ("", "")
  | String c rest =>
      if is_digit c
      then let r := take_digits rest in (String c (fst r), snd r)
      else ("", s)
  end.

Fixpoint digits_value (acc : Z) (digits : string) : Z :=
  match digits with
  | EmptyString => acc
  | String c rest => digits_value (10 * acc + (Z.of_nat (nat_of_ascii c) - 48)) rest
  end.

(** [s] without the leading [p], when it starts with it. *)
Fixpoint strip_prefix (p s : string) : option string :=
  match p, s with
  | EmptyString, _ => Some s
  | String a p', String b s' => if Ascii.eqb a b then strip_prefix p' s' else None
  | String _ _, EmptyString => None
  end.

(** A number and the colon that ends it. *)
Definition number_colon (s : string) : option (Z * string) :=
  let r := take_digits s in
  if str_empty (fst r) then None
  else match snd r with
       | String c rest => if Ascii.eqb c colon then Some (digits_value 0 (fst r), rest) else None
       | EmptyString => None
       end.

Definition severities : list string := ["error"; "warning"; "note"].

(** The severity keyword of the dialect, followed by a colon and a space. *)
Fixpoint severity_of (keywords : list string) (s : string) : option (string * string) :=
  match keywords with
  | [] => None
  | k :: ks =>
      match strip_prefix (k +:+ ": ") s with
      | Some rest => Some (k, rest)
      | None => severity_of ks s
      end
  end.

(** [line:col: severity: message], the part after the file and its colon. *)
Definition position_and_message (s : string) : option (Z * Z * string * string) :=
  match number_colon s with
  | None => None
  | Some (line, s1) =>
      match number_colon s1 with
      | None => None
      | Some (column, s2) =>
          match strip_prefix " " s2 with
          | None => None
          | Some s3 =>
              match severity_of severities s3 with
              | None => None
              | Some (severity, message) =>
                  if str_empty message then None
                  else Some (line, column, severity, message)
              end
          end
      end
  end.

(** The shortest non-empty file part whose colon is followed by a position,
    a severity and a message. [file] is what was read so far. *)
Fixpoint match_from (file s : string) : option (string * (Z * Z * string * string)) :=
  match s with
  | EmptyString => None
  | String c rest =>
      if Ascii.eqb c colon && negb (str_empty file)
      then match position_and_message rest with
           | Some d => Some (file, d)
           | None => match_from (file +:+ String c "") rest
           end
      else match_from (file +:+ String c "") rest
  end.

(** A path of a diagnostic is completed against the base directory unless it
    is absolute. *)
Definition resolve (baseDirectory : FilePath) (file : string) : string :=
  match file with
  | String c _ => if Ascii.eqb c slash then file else baseDirectory +:+ "/" +:+ file
  | EmptyString => baseDirectory
  end.

Definition parseLine (baseDirectory : FilePath) (line : string) : option CompileError :=
  match match_from "" line with
  | Some (file, (l, c, severity, message)) =>
      Some (mkCompileError (resolve baseDirectory file) l c severity message)
  | None => None
  end.

(** The lines of a text, split at every newline. *)
Fixpoint lines (text : string) : list string :=
  match text with
  | EmptyString => [""]
  | String c rest =>
      if Ascii.eqb c (ascii_of_nat 10) then "" :: lines rest
      else match lines rest with
           | [] => [String c ""]
           | l :: ls => String c l :: ls
           end
  end.

(** The records of the lines that match, in the order of the lines. *)
Fixpoint parseLines (baseDirectory : FilePath) (ls : list string) : list CompileError :=
  match ls with
  | [] => []
  | l :: rest =>
      match parseLine baseDirectory l with
      | Some e => e :: parseLines baseDirectory rest
      | None => parseLines baseDirectory rest
      end
  end.

(** Modelled from the spec: [gccErrorParser] of SessionBuildErrors.hpp, the
    Diagnostics Parser for the dialect [file:line:col: severity: message]. It
    resolves relative paths against the base directory, keeps the order of the
    text, gives no record for a line that does not match, and has no failure. *)
Definition parse (baseDirectory : FilePath) (combinedText : string) : list CompileError :=
  parseLines baseDirectory (lines combinedText).

End Gcc.

(** ** Hosts to run the session on *)

Module Host.

(** Whether [needle] occurs in [hay]. *)
Fixpoint contains (needle hay : string) : bool :=
  String.prefix needle hay ||
  match hay with
  | EmptyString => false
  | String _ rest => contains needle rest
  end.

(** Modelled from the spec: [build::addRtoolsToPathIfNecessary] of
    SessionBuildEnvironment.hpp, the Environment Patcher's [apply]. The
    toolchain entry is prepended only if the toolchain is located and the
    entry is not already present; a toolchain that is not located gives a
    warning and no patch. [toolchain] is what the locator finds. *)
Definition addRtools (toolchain : option string) (path warning : string)
  : bool * (string * string) :=
  match toolchain with
  | None => (false, (path, "Rtools was not found"))
  | Some entry =>
      if contains entry path then (false, (path, warning))
      else (true, (entry +:+ ";" +:+ path, warning))
  end.

(** The directory of a path: what is before its last slash. *)
Fixpoint directory (p : string) : string :=
  match p with
  | EmptyString => ""
  | String c rest =>
      if contains "/" rest then String c (directory rest) else ""
  end.

(** A Windows host, where the toolchain may have to be put on the PATH. *)
Definition windows (toolchain : option string) : Collaborators :=
  {| win32 := true;
     addRtoolsToPathIfNecessary := addRtools toolchain;
     gccErrorParser := Gcc.parse;
     createAliasedPath := fun p => p;
     parent := directory;
     kBuildOutputNormal := 1;
     kBuildOutputError := 2;
     consoleWriteErrorFires := true |}.

(** Any other host: the PATH is never touched. *)
Definition posix : Collaborators :=
  {| win32 := false;
     addRtoolsToPathIfNecessary := fun path warning => (false, (path, warning));
     gccErrorParser := Gcc.parse;
     createAliasedPath := fun p => p;
     parent := directory;
     kBuildOutputNormal := 1;
     kBuildOutputError := 2;
     consoleWriteErrorFires := true |}.

End Host.

(** ** Worlds the claims are checked on *)

Module Scenario.

Definition rtools : string := "C:/Rtools/bin".

(** A build from a code string on a host that needs no PATH fix-up. *)
Definition codeBuild : World :=
  exec (run (host := Host.posix) [CallOnBuild "/home/u/x.cpp" true false])
       (initialWorld ∅).

(** A build of a file that wrote to both channels. *)
Definition noisyBuild : World :=
  exec (run (host := Host.posix)
          [CallOnBuild "/home/u/x.cpp" false false;
           ConsoleOutput ConsoleOutputNormal ("out" +:+ newline);
           ConsoleOutput ConsoleOutputError ("err" +:+ newline)])
       (initialWorld ∅).

(** A Windows process whose PATH is set to the empty string. *)
Definition emptyPath : World := initialWorld {["PATH" := ""]}.

(** A Windows process with a PATH that lacks the toolchain. *)
Definition windowsPath : World := initialWorld {["PATH" := "C:/Windows"]}.

(** One build from start to the delayed completion. *)
Definition oneBuild : list Call :=
  [CallOnBuild "C:/p/x.cpp" false false; CallOnBuildComplete true "ok"; TimerFires].

(** A second start before the first build completes. *)
Definition twoStarts : list Call :=
  [CallOnBuild "C:/p/x.cpp" false false;
   CallOnBuild "C:/p/y.cpp" false false;
   CallOnBuildComplete true "ok"; TimerFires].

(** Two builds of which the second starts before the first completes; both
    completions are signalled and both delayed handlers run. *)
Definition overlappingBuilds : list Call :=
  [CallOnBuild "C:/p/x.cpp" false false;
   CallOnBuild "C:/p/y.cpp" false false;
   CallOnBuildComplete true "ok";
   CallOnBuildComplete true "ok";
   TimerFires; TimerFires].

(** A failed build of /a/b/foo.cpp whose error channel got the diagnostics
    example. *)
Definition failedBuild (text : string) : World :=
  exec (run (host := Host.posix)
          [CallOnBuild "/a/b/foo.cpp" false false;
           ConsoleOutput ConsoleOutputError text])
       (initialWorld ∅).

(** The text of the diagnostics example. *)
Definition diagnostics : string :=
  "/a/b/foo.cpp:12:5: error: expected ';'" +:+ newline
  +:+ "note: irrelevant line" +:+ newline.

End Scenario.

(** ** The rest of SessionSourceCpp.cpp *)

(** [boost::algorithm::join]. *)
Fixpoint join (parts : list string) (separator : string) : string :=
  match parts with
  | [] => ""
  | [p] => p
  | p :: rest => p +:+ separator +:+ join rest separator
  end.

(** The two other methods of [struct SourceCppState]. *)
Module State.

Definition empty (s : SourceCppState) : bool :=
  match errors s, outputs s with
  | [], [] => true
  | _, _ => false
  end.

Definition clear (s : SourceCppState) : SourceCppState :=
  {| targetFile := ""; errors := []; outputs := [] |}.

End State.

(** The R values that the two entry points tell apart: [R_NilValue], a
    character vector, anything else. *)
Inductive SEXP :=
| R_NilValue
| STRSXP (lines : list string)
| LGLSXP (value : bool)
| OtherSXP.

(** [r::sexp::extract] into a vector of strings: an error for what is not a
    character vector, and the vector is then left as it was. *)
Definition extract (s : SEXP) (outputLines : list string)
  : option string * list string :=
  match s with
  | STRSXP lines => (None, lines)
  | _ => (Some "expected a character vector", outputLines)
  end.

Section EntryPoints.
Context {host : Collaborators}.

(** [rs_sourceCppOnBuild], with its three arguments already converted; the
    result is [r::sexp::create(doBuild)]. *)
Definition rs_sourceCppOnBuild (filePath : FilePath) (fromCode showOutput : bool)
  : M SEXP :=
  doBuild <- onBuild filePath fromCode showOutput ;;
  ret (LGLSXP doBuild).

(** [rs_sourceCppOnBuildComplete], with [sSucceeded] already converted. Next
    to [R_NilValue] it returns the errors that it logged. *)
Definition rs_sourceCppOnBuildComplete (succeeded : bool) (sOutput : SEXP)
  : M (SEXP * list string) :=
  let outputLines : list string := [] in
  let extracted :=
    match sOutput with
    | R_NilValue => (None, "")
    | _ =>
        let r := extract sOutput outputLines in
        (fst r, join (snd r) newline)
    end in
  let logged := match fst extracted with Some e => [e] | None => [] end in
  onBuildComplete succeeded (snd extracted) ;;
  ret (R_NilValue, logged).

End EntryPoints.

(** The events of a kind in a log, and the calls of a kind in a run. *)
Definition isStarted (e : Effect) : bool :=
  match e with EnqueClientEvent kSourceCppStarted => true | _ => false end.

Definition startedOf (es : list Effect) : nat := length (List.filter isStarted es).

Definition isOnBuild (c : Call) : bool :=
  match c with CallOnBuild _ _ _ => true | _ => false end.

Definition isOnBuildComplete (c : Call) : bool :=
  match c with CallOnBuildComplete _ _ => true | _ => false end.

Definition countCalls (p : Call -> bool) (cs : list Call) : nat :=
  length (List.filter p cs).

(** ** SlideRequestHandler.cpp: strings *)

Module Str.

(** The double quote, for the markup that the handlers build. *)
Definition dq : string := String (ascii_of_nat 34) "".

(** [std::string::size]. *)
Fixpoint size (s : string) : nat :=
  match s with
  | EmptyString => 0
  | String _ rest => S (size rest)
  end.

(** [boost::algorithm::starts_with input test]. *)
Fixpoint starts_with (input test : string) {struct test} : bool :=
  match test with
  | EmptyString => true
  | String a test' =>
      match input with
      | EmptyString => false
      | String b input' => Ascii.eqb a b && starts_with input' test'
      end
  end.

(** [s.substr(pos)] for a position inside [s]. *)
Fixpoint drop (pos : nat) (s : string) : string :=
  match pos with
  | O => s
  | S pos' => match s with
              | EmptyString => EmptyString
              | String _ rest => drop pos' rest
              end
  end.

(** [s.substr(0, len)]. *)
Fixpoint take (len : nat) (s : string) : string :=
  match len with
  | O => EmptyString
  | S len' => match s with
              | EmptyString => EmptyString
              | String c rest => String c (take len' rest)
              end
  end.

(** [std::string::find] of a string: the first position where it starts,
    [None] for [npos]. *)
Fixpoint find (s sub : string) : option nat :=
  if starts_with s sub then Some 0
  else match s with
       | EmptyString => None
       | String _ rest => option_map S (find rest sub)
       end.

(** [std::string::find_first_of] of one character. *)
Fixpoint find_first_of (s : string) (c : ascii) : option nat :=
  match s with
  | EmptyString => None
  | String b rest =>
      if Ascii.eqb b c then Some 0 else option_map S (find_first_of rest c)
  end.

(** Space as [boost::algorithm::trim_copy] sees it in the classic locale:
    blank, tab, newline, vertical tab, form feed, carriage return. *)
Definition is_space (c : ascii) : bool :=
  let n := nat_of_ascii c in
  (n =? 32)%nat || ((9 <=? n)%nat && (n <=? 13)%nat).

Fixpoint trim_left (s : string) : string :=
  match s with
  | EmptyString => EmptyString
  | String c rest => if is_space c then trim_left rest else s
  end.

Fixpoint trim_right (s : string) : string :=
  match s with
  | EmptyString => EmptyString
  | String c rest =>
      match trim_right rest with
      | EmptyString => if is_space c then EmptyString else String c EmptyString
      | kept => String c kept
      end
  end.

Definition trim_copy (s : string) : string := trim_right (trim_left s).

(** [boost::algorithm::replace_first_copy]: the first place where [search]
    starts is replaced by [format]; an input without it, and an empty
    [search], give the input back. *)
Fixpoint replace_first (input search format : string) : string :=
  match input with
  | EmptyString => EmptyString
  | String c rest =>
      if starts_with input search
      then format +:+ drop (size search) input
      else String c (replace_first rest search format)
  end.

Definition replace_first_copy (input search format : string) : string :=
  if str_empty search then input else replace_first input search format.

(** [boost::algorithm::replace_all_copy]: every place where [search] starts,
    from the left and without overlap; [skip] counts the characters of a
    match that are still to be passed over. *)
Fixpoint replace_all (skip : nat) (input search format : string) : string :=
  match input with
  | EmptyString => EmptyString
  | String c rest =>
      match skip with
      | S skip' => replace_all skip' rest search format
      | O =>
          if starts_with input search
          then format +:+ replace_all (size search - 1) rest search format
          else String c (replace_all 0 rest search format)
      end
  end.

Definition replace_all_copy (input search format : string) : string :=
  if str_empty search then input else replace_all 0 input search format.

End Str.

(** ** SlideRequestHandler.cpp: resources and markup *)

Module Presentation.

(** [ResourceFiles::get] on the cache of the singleton. The resource is read
    with [resourceFileAsString], which is given with each call since what it
    reads may change. *)
Definition get (resourceFileAsString : string -> string) (path : string)
    (cache_ : gmap string string) : string * gmap string string :=
  let cache_ :=
    match cache_ !! path with
    | None => <[path := resourceFileAsString path]> cache_
    | Some _ => cache_
    end in
  (default "" (cache_ !! path), cache_).

(** [revealResource]. *)
Definition revealResource (resourceFileAsString : string -> string)
    (path : string) (embed : bool) (extraAttribs : string)
    (cache_ : gmap string string) : string * gmap string string :=
  let isCss := ends_with path "css" in
  if embed then
    let r := get resourceFileAsString ("presentation/" +:+ path) cache_ in
    if isCss then
      ("<style type=" +:+ Str.dq +:+ "text/css" +:+ Str.dq +:+ " "
         +:+ extraAttribs +:+ " >" +:+ newline
         +:+ fst r +:+ newline +:+ "</style>", snd r)
    else
      ("<script type=" +:+ Str.dq +:+ "text/javascript" +:+ Str.dq +:+ " "
         +:+ extraAttribs +:+ " >" +:+ newline
         +:+ fst r +:+ newline +:+ "</script>", snd r)
  else
    if isCss then
      ("<link rel=" +:+ Str.dq +:+ "stylesheet" +:+ Str.dq +:+ " href="
         +:+ Str.dq +:+ path +:+ Str.dq +:+ " " +:+ extraAttribs +:+ " >", cache_)
    else
      ("<script src=" +:+ Str.dq +:+ path +:+ Str.dq +:+ " "
         +:+ extraAttribs +:+ " ></script>", cache_).

(** [revealEmbed] and [revealLink]. *)
Definition revealEmbed (resourceFileAsString : string -> string)
    (path extraAttribs : string) (cache_ : gmap string string) :=
  revealResource resourceFileAsString path true extraAttribs cache_.

Definition revealLink (resourceFileAsString : string -> string)
    (path extraAttribs : string) (cache_ : gmap string string) :=
  revealResource resourceFileAsString path false extraAttribs cache_.

(** [remoteMathjax] and [localMathjax]. *)
Definition remoteMathjax (resourceFileAsString : string -> string)
    (cache_ : gmap string string) : string * gmap string string :=
  get resourceFileAsString "presentation/mathjax.html" cache_.

Definition mathjaxUrl : string :=
  "https://c328740.ssl.cf1.rackcdn.com/mathjax/2.0-latest".

Definition localMathjax (resourceFileAsString : string -> string)
    (cache_ : gmap string string) : string * gmap string string :=
  let r := remoteMathjax resourceFileAsString cache_ in
  (Str.replace_first_copy (fst r) mathjaxUrl "mathjax", snd r).

(** [localWebFonts] and [remoteWebFonts]. *)
Definition localWebFonts : string :=
  "@import url('revealjs/fonts/NewsCycle.css');" +:+ newline
  +:+ "@import url('revealjs/fonts/Lato.css');".

Definition remoteWebFonts : string :=
  "@import url('https://fonts.googleapis.com/css?family=News+Cycle:400,700');"
  +:+ newline
  +:+ "@import url('https://fonts.googleapis.com/css?family=Lato:400,700,400italic,700italic');".

(** [fixupLink] on the two parts of a match of [linkFilter]: the whole
    anchor up to the end of its address, and the address. [urlDecode] and
    the writer of the JSON object with its two members are not part of this
    file. The colon is looked for only in an address that starts with one of
    the two help prefixes, so it is always found. *)
Definition fixupLink (urlDecode : string -> string)
    (jsonWrite : list (string * string) -> string)
    (match0 match1 : string) : string :=
  let href := urlDecode match1 in
  if Str.starts_with href "#" then
    match0
  else if bool_decide (is_Some (Str.find href "://")) then
    match0 +:+ " target=" +:+ Str.dq +:+ "_blank" +:+ Str.dq
  else if Str.starts_with href "help-topic:" || Str.starts_with href "help-doc:" then
    match Str.find_first_of href (ascii_of_nat 58) with
    | Some colonLoc =>
        let onClick :=
          if (colonLoc + 2 <? Str.size href)%nat then
            "onclick='" +:+ "window.parent.dispatchPresentationCommand("
            +:+ jsonWrite [("name", Str.trim_copy (Str.take colonLoc href));
                           ("params", Str.trim_copy (Str.drop (colonLoc + 1) href))]
            +:+ "); return false;'"
          else "" in
        match0 +:+ " " +:+ onClick
    | None => match0 +:+ " "
    end
  else
    match0.

(** ** SlideRequestHandler.cpp: files, knitting and requests *)

(** What the handlers log, run and remove, in the order it happens. *)
Inductive PEffect :=
| LOG_ERROR (error : string)
| RemoveIfExists (path : FilePath)
| RunProgram (program : string) (args : list string) (input : string)
             (workingDir : FilePath)
| OpenForWrite (path : FilePath)
| WriteTo (path : FilePath) (text : string)
| ConsoleWriteErrorP (message : string).

(** [core::system::ProcessResult]. *)
Record ProcessResult := mkProcessResult { exitStatus : Z; stdErr : string }.

(** [presentation::SlideDeck], as far as this file reads it. *)
Record SlideDeck := mkSlideDeck { title : string; transition : string }.

(** What [presentation::renderSlides] gives for a deck. *)
Record RenderedSlides := mkRenderedSlides {
  slidesHtml : string;
  revealConfig : string;
  initActions : string;
  slideActions : string
}.

(** The filters that are pushed on the stream of the template. *)
Inductive Filter :=
| LinkFilter
| Base64ImageFilter (dirPath : FilePath).

(** [core::FileInfo], as far as [handleRangeRequest] compares it. *)
Record FileInfo := mkFileInfo { absolutePath : string; fileLastWriteTime : Z }.

(** [struct RangeFileCache] of [handleRangeRequest]. *)
Record RangeFileCache := mkRangeFileCache {
  file : FileInfo;
  contentType : string;
  contents : string
}.

(** [RangeFileCache::clear]; [FileInfo()] has no path and no time. *)
Definition clearedRangeFileCache : RangeFileCache :=
  {| file := mkFileInfo "" 0; contentType := ""; contents := "" |}.

(** [http::Request], as far as the handlers read it. *)
Record Request := mkRequest {
  uri : string;
  headers : list (string * string);
  queryParams : list (string * string)
}.

(** The first value under a name, and the empty string without one, as
    [headerValue] and [queryParamValue] give it. *)
Fixpoint valueOf (name : string) (fields : list (string * string)) : string :=
  match fields with
  | [] => ""
  | (n, v) :: rest => if String.eqb n name then v else valueOf name rest
  end.

Definition headerValue (request : Request) (name : string) : string :=
  valueOf name (headers request).

Definition queryParamValue (request : Request) (name : string) : string :=
  valueOf name (queryParams request).

(** The two statuses that the handlers set. *)
Inductive Status := NotFound | InternalServerError.

(** What a handler calls on the response, in order. *)
Inductive ResponseAction :=
| SetError (status : Status) (message : string)
| SetErrorFrom (error : string)
| SetNoCacheHeaders
| SetBody (body : string)
| SetBodyFiltered (template : string) (vars : gmap string string)
| SetFile (filePath : FilePath) (request : Request)
| SetRangeableFile (fileContents fileContentType : string) (request : Request)
| AddHeader (name value : string).

(** What is not part of this file: paths, the disk, R and knitr, processes,
    slides, markdown, templates and the options of the session. A function
    that writes through a pointer gets the old value and returns the new one
    next to its result; an [Error] is kept as its summary, on the left of a
    sum. [renderTemplate] stands for the filtering stream that copies the
    template: it gives what reached the target stream and the message of the
    exception, if one was thrown. *)
Class Platform := {
  Disk : Type;
  parent : FilePath -> FilePath;
  childPath : FilePath -> string -> FilePath;
  complete : FilePath -> string -> FilePath;
  stem : FilePath -> string;
  filename : FilePath -> string;
  mimeContentType : FilePath -> string;
  utf8ToSystem : string -> string;
  exists_ : Disk -> FilePath -> bool;
  lastWriteTime : Disk -> FilePath -> Z;
  fileInfo : Disk -> FilePath -> FileInfo;
  readStringFromFile : Disk -> FilePath -> string -> option string * string;
  removeIfExists : FilePath -> Disk -> option string * Disk;
  open_w : FilePath -> Disk -> option string * Disk;
  resourceFileAsString : Disk -> string -> string;
  rScriptPath : Disk -> string + FilePath;
  callHasKnitrVersion1 : Disk -> string + bool;
  defaultEncoding : string;
  runProgram : string -> list string -> string -> FilePath -> Disk
               -> (string + ProcessResult) * Disk;
  presentationDirectory : FilePath;
  presentationIsActive : bool;
  readSlides : Disk -> FilePath -> string + SlideDeck;
  renderSlides : SlideDeck -> string + RenderedSlides;
  isMathJaxRequired : string -> bool;
  renderTemplate : string -> gmap string string -> list Filter
                   -> string * option string;
  written : FilePath -> string -> Disk -> Disk;
  markdownToHTML : Disk -> FilePath -> string + string;
  defaultTitle : string -> string;
  programModeIsDesktop : bool;
  rResourcesPath : FilePath;
  mathjaxPath : FilePath;
  pathAfterPrefix : Request -> string -> string;
  resolveAliasedPath : string -> FilePath
}.

Section Handlers.
Context {P : Platform}.

(** [hasKnitrVersion1]: the answer of R, and false with a logged error when
    the call fails. *)
Definition hasKnitrVersion1 (disk : Disk) : bool * list PEffect :=
  let hasVersion := false in
  match callHasKnitrVersion1 disk with
  | inl error => (hasVersion, [LOG_ERROR error])
  | inr answer => (answer, [])
  end.

(** The R code that [performKnit] builds with [boost::format]. *)
Definition knitCommand (stemName fileName encoding : string) : string :=
  "library(knitr); "
  +:+ "opts_chunk$set(cache=TRUE, "
  +:+ "cache.path='" +:+ stemName +:+ "-cache/', "
  +:+ "fig.path='" +:+ stemName +:+ "-figure/', "
  +:+ "tidy=FALSE, "
  +:+ "warning=FALSE, "
  +:+ "message=FALSE, "
  +:+ "comment=NA); "
  +:+ "knit('" +:+ fileName +:+ "', encoding='" +:+ encoding +:+ "');".

(** The result of a function that answers with a flag and an error message
    behind a pointer, on a disk, with what it did. *)
Record Outcome := mkOutcome {
  succeeded : bool;
  errMsg : string;
  diskAfter : Disk;
  did : list PEffect
}.

(** [performKnit]. *)
Definition performKnit (rmdPath : FilePath) (pErrMsg : string) (disk : Disk)
  : Outcome :=
  let mdPath := childPath (parent rmdPath) (stem rmdPath +:+ ".md") in
  if exists_ disk mdPath
     && (lastWriteTime disk rmdPath <? lastWriteTime disk mdPath)%Z
  then mkOutcome true pErrMsg disk []
  else
    match rScriptPath disk with
    | inl error => mkOutcome false error disk []
    | inr rProgramPath =>
        let knitr := hasKnitrVersion1 disk in
        if negb (fst knitr) then
          mkOutcome false
            "knitr version 1.0 or greater is required for presentations"
            disk (snd knitr)
        else
          let removed := removeIfExists mdPath disk in
          let removeLog :=
            RemoveIfExists mdPath
            :: match fst removed with
               | Some error => [LOG_ERROR error]
               | None => []
               end in
          let args :=
            ["--silent"; "--no-save"; "--no-restore"; "-e";
             knitCommand (stem rmdPath) (filename rmdPath) defaultEncoding] in
          let program := utf8ToSystem rProgramPath in
          let ran := runProgram program args "" (parent rmdPath) (snd removed) in
          let log :=
            snd knitr ++ removeLog
            ++ [RunProgram program args "" (parent rmdPath)] in
          match fst ran with
          | inl error => mkOutcome false error (snd ran) log
          | inr result =>
              if negb (exitStatus result =? 0)%Z then
                mkOutcome false ("Error occurred during knit: " +:+ stdErr result)
                          (snd ran) log
              else mkOutcome true pErrMsg (snd ran) log
          end
    end.

(** [handleRangeRequest] on the cache of the last file. *)
Definition handleRangeRequest (targetFile : FilePath) (request : Request)
    (disk : Disk) (s_cache : RangeFileCache)
  : list ResponseAction * RangeFileCache :=
  if negb (String.eqb targetFile (absolutePath (file s_cache)))
     || negb (lastWriteTime disk targetFile =? fileLastWriteTime (file s_cache))%Z
  then
    let s_cache := clearedRangeFileCache in
    let read := readStringFromFile disk targetFile (contents s_cache) in
    let s_cache := mkRangeFileCache (file s_cache) (contentType s_cache) (snd read) in
    match fst read with
    | Some error => ([SetErrorFrom error], s_cache)
    | None =>
        let s_cache :=
          mkRangeFileCache (fileInfo disk targetFile) (mimeContentType targetFile)
                           (contents s_cache) in
        ([SetRangeableFile (contents s_cache) (contentType s_cache) request], s_cache)
    end
  else
    ([SetRangeableFile (contents s_cache) (contentType s_cache) request], s_cache).

(** What the handlers of this file keep between calls: the cache of
    [ResourceFiles], the cache of [handleRangeRequest], the directory that
    [handlePresentationHelpRequest] saved, and the disk. *)
Record PState := mkPState {
  cache_ : gmap string string;
  s_cache : RangeFileCache;
  s_presentationHelpDir : FilePath;
  disk : Disk
}.

Definition withCache (c : gmap string string) (st : PState) : PState :=
  mkPState c (s_cache st) (s_presentationHelpDir st) (disk st).

Definition withDisk (d : Disk) (st : PState) : PState :=
  mkPState (cache_ st) (s_cache st) (s_presentationHelpDir st) d.

(** Two states with the same range cache and the same saved help directory. *)
Definition keepsRequestState (st st' : PState) : Prop :=
  s_cache st' = s_cache st
  /\ s_presentationHelpDir st' = s_presentationHelpDir st.

(** [resourceFiles().get] on the state. *)
Definition resource (path : string) (st : PState) : string * PState :=
  let r := get (resourceFileAsString (disk st)) path (cache_ st) in
  (fst r, withCache (snd r) st).

(** What [readPresentation] leaves behind its pointers. *)
Record Presentation := mkPresentation {
  readOk : bool;
  deck : option SlideDeck;
  slides : string;
  initCommands : string;
  slideCommands : string;
  vars : gmap string string;
  readErrMsg : string;
  readDid : list PEffect
}.

(** [readPresentation]. *)
Definition readPresentation (pVars : gmap string string) (pErrMsg : string)
    (st : PState) : Presentation * PState :=
  let presDir := presentationDirectory in
  let rmdFile := complete presDir "slides.Rmd" in
  let knit :=
    if exists_ (disk st) rmdFile then performKnit rmdFile pErrMsg (disk st)
    else mkOutcome true pErrMsg (disk st) [] in
  let st := withDisk (diskAfter knit) st in
  if negb (succeeded knit) then
    (mkPresentation false None "" "" "" pVars (errMsg knit) (did knit), st)
  else
    let slidesFile := complete presDir "slides.md" in
    if negb (exists_ (disk st) slidesFile) then
      (mkPresentation false None "" "" "" pVars
         ("slides.md file not found in " +:+ presentationDirectory) (did knit), st)
    else
      match readSlides (disk st) slidesFile with
      | inl error =>
          (mkPresentation false None "" "" "" pVars error
             (did knit ++ [LOG_ERROR error]), st)
      | inr slideDeck =>
          match renderSlides slideDeck with
          | inl error =>
              (mkPresentation false (Some slideDeck) "" "" "" pVars error
                 (did knit ++ [LOG_ERROR error]), st)
          | inr rendered =>
              let vars := <["title" := title slideDeck]> pVars in
              let vars := <["slides" := slidesHtml rendered]> vars in
              let css := resource "presentation/slides.css" st in
              let vars := <["slides_css" := fst css]> vars in
              let highlight := resource "r_highlight.html" (snd css) in
              let vars := <["r_highlight" := fst highlight]> vars in
              let vars := <["reveal_config" := revealConfig rendered]> vars in
              (mkPresentation true (Some slideDeck) (slidesHtml rendered)
                 (initActions rendered) (slideActions rendered) vars pErrMsg
                 (did knit), snd highlight)
          end
      end.

(** [renderPresentation]: the flag, the error message behind the pointer and
    what was written to the stream. *)
Definition renderPresentation (vars : gmap string string) (filters : list Filter)
    (pErrMsg : string) (st : PState) : (bool * string * string) * PState :=
  let template := resource "presentation/slides.html" st in
  let rendered := renderTemplate (fst template) vars filters in
  match snd rendered with
  | Some what => ((false, what, fst rendered), snd template)
  | None => ((true, pErrMsg, fst rendered), snd template)
  end.

(** [publishToRPubsVars]. *)
Definition publishToRPubsVars (slides : string) (vars : gmap string string)
    (st : PState) : gmap string string * PState :=
  let vars := <["google_webfonts" := remoteWebFonts]> vars in
  if isMathJaxRequired slides then
    let r := remoteMathjax (resourceFileAsString (disk st)) (cache_ st) in
    (<["mathjax" := fst r]> vars, withCache (snd r) st)
  else (<["mathjax" := ""]> vars, st).

(** [revealEmbed] on the state. *)
Definition embed (path extraAttribs : string) (st : PState) : string * PState :=
  let r := revealEmbed (resourceFileAsString (disk st)) path extraAttribs (cache_ st) in
  (fst r, withCache (snd r) st).

(** [createStandalonePresentation]: the flag, the error message behind
    [pErrMsg], and what was done. *)
Definition createStandalonePresentation (targetFile : FilePath)
    (varSource : string -> gmap string string -> PState
                 -> gmap string string * PState)
    (pErrMsg : string) (st : PState) : (bool * string * list PEffect) * PState :=
  let errMsg := "" in
  let read := readPresentation ∅ pErrMsg st in
  let st := snd read in
  if negb (readOk (fst read)) then
    ((false, readErrMsg (fst read), readDid (fst read)), st)
  else
    let vars := vars (fst read) in
    let kMediaPrint := "media=" +:+ Str.dq +:+ "print" +:+ Str.dq in
    let e1 := embed "revealjs/css/print/pdf.css" kMediaPrint st in
    let vars := <["reveal_print_pdf_css" := fst e1]> vars in
    let e2 := embed "revealjs/css/reveal.min.css" "" (snd e1) in
    let vars := <["reveal_css" := fst e2]> vars in
    let e3 := embed "revealjs/css/theme/simple.css" "" (snd e2) in
    let vars := <["reveal_theme_css" := fst e3]> vars in
    let e4 := embed "revealjs/lib/js/head.min.js" "" (snd e3) in
    let vars := <["reveal_head_js" := fst e4]> vars in
    let e5 := embed "revealjs/js/reveal.min.js" "" (snd e4) in
    let vars := <["reveal_js" := fst e5]> vars in
    let sourced := varSource (slides (fst read)) vars (snd e5) in
    let vars := fst sourced in
    let st := snd sourced in
    let vars := <["slide_commands" := ""]> vars in
    let vars := <["slides_js" := ""]> vars in
    let vars := <["init_commands" := ""]> vars in
    let vars := <["reveal_width" := "960"]> vars in
    let vars := <["reveal_height" := "700"]> vars in
    let vars :=
      <["reveal_transition" := from_option transition "" (deck (fst read))]> vars in
    let opened := open_w targetFile (disk st) in
    let st := withDisk (snd opened) st in
    match fst opened with
    | Some error =>
        ((false, error,
          readDid (fst read) ++ [OpenForWrite targetFile; LOG_ERROR error]), st)
    | None =>
        let dirPath := presentationDirectory in
        let filters := [Base64ImageFilter dirPath] in
        let rendered := renderPresentation vars filters errMsg st in
        let st := snd rendered in
        let st := withDisk (written targetFile (snd (fst rendered)) (disk st)) st in
        ((fst (fst (fst rendered)), pErrMsg,
          readDid (fst read)
          ++ [OpenForWrite targetFile; WriteTo targetFile (snd (fst rendered))]), st)
    end.

(** [rs_createStandalonePresentation]: what it did, the last of which is what
    it wrote to the console when the presentation could not be created. *)
Definition rs_createStandalonePresentation (st : PState) : list PEffect * PState :=
  let dirPath := presentationDirectory in
  let htmlPath := complete dirPath (stem dirPath +:+ ".html") in
  let errMsg := "" in
  let created := createStandalonePresentation htmlPath publishToRPubsVars errMsg st in
  if negb (fst (fst (fst created))) then
    (snd (fst created)
     ++ [ConsoleWriteErrorP (snd (fst (fst created)) +:+ newline)], snd created)
  else (snd (fst created), snd created).

(** [revealLink] on the state. *)
Definition link (path : string) (st : PState) : string * PState :=
  let r := revealLink (resourceFileAsString (disk st)) path "" (cache_ st) in
  (fst r, withCache (snd r) st).

(** [handlePresentationRootRequest]. *)
Definition handlePresentationRootRequest (path : string) (st : PState)
  : list ResponseAction * PState :=
  let errMsg := "" in
  let read := readPresentation ∅ errMsg st in
  let st := snd read in
  if negb (readOk (fst read)) then
    ([SetError InternalServerError (readErrMsg (fst read))], st)
  else
    let vars := vars (fst read) in
    let vars :=
      <["slides" :=
          Str.replace_all_copy (default "" (vars !! "slides"))
            ("controls preload=" +:+ Str.dq +:+ "auto" +:+ Str.dq)
            ("controls preload=" +:+ Str.dq +:+ "none" +:+ Str.dq)]> vars in
    let l1 := link "revealjs/css/reveal.css" st in
    let vars := <["reveal_css" := fst l1]> vars in
    let l2 := link "revealjs/css/theme/simple.css" (snd l1) in
    let vars := <["reveal_theme_css" := fst l2]> vars in
    let l3 := link "revealjs/lib/js/head.min.js" (snd l2) in
    let vars := <["reveal_head_js" := fst l3]> vars in
    let l4 := link "revealjs/js/reveal.js" (snd l3) in
    let vars := <["reveal_js" := fst l4]> vars in
    let st := snd l4 in
    let vars := <["reveal_print_pdf_css" := ""]> vars in
    let vars := <["google_webfonts" := localWebFonts]> vars in
    let mathjax :=
      if isMathJaxRequired (slides (fst read)) then
        let r := localMathjax (resourceFileAsString (disk st)) (cache_ st) in
        (fst r, withCache (snd r) st)
      else ("", st) in
    let vars := <["mathjax" := fst mathjax]> vars in
    let st := snd mathjax in
    let vars := <["slide_commands" := slideCommands (fst read)]> vars in
    let js := resource "presentation/slides.js" st in
    let vars := <["slides_js" := fst js]> vars in
    let st := snd js in
    let vars := <["init_commands" := initCommands (fst read)]> vars in
    let zoomStr := if String.eqb path "zoom" then "true" else "false" in
    let vars := <["reveal_width" := "revealDetectWidth(" +:+ zoomStr +:+ ")"]> vars in
    let vars := <["reveal_height" := "revealDetectHeight(" +:+ zoomStr +:+ ")"]> vars in
    let isDesktop := programModeIsDesktop in
    let vars :=
      <["reveal_transition" :=
          if isDesktop then "none"
          else from_option transition "" (deck (fst read))]> vars in
    let filters := [LinkFilter] in
    let rendered := renderPresentation vars filters errMsg st in
    let st := snd rendered in
    if fst (fst (fst rendered)) then
      ([SetNoCacheHeaders; SetBody (snd (fst rendered))], st)
    else
      ([SetError InternalServerError (snd (fst (fst rendered)))], st).

(** [handlePresentationHelpMarkdownRequest]. *)
Definition handlePresentationHelpMarkdownRequest (filePath : FilePath)
    (jsCallbacks : string) (st : PState) : list ResponseAction * PState :=
  let knit :=
    if String.eqb (mimeContentType filePath) "text/x-r-markdown" then
      (complete (parent filePath) (stem filePath +:+ ".md"),
       performKnit filePath "" (disk st))
    else (filePath, mkOutcome true "" (disk st) []) in
  let mdFilePath := fst knit in
  let st := withDisk (diskAfter (snd knit)) st in
  if negb (succeeded (snd knit)) then
    ([SetError InternalServerError (errMsg (snd knit))], st)
  else
    match markdownToHTML (disk st) mdFilePath with
    | inl error => ([SetErrorFrom error], st)
    | inr helpDoc =>
        let vars : gmap string string := <["title" := defaultTitle helpDoc]> ∅ in
        let styles := resource "presentation/helpdoc.css" st in
        let vars := <["styles" := fst styles]> vars in
        let highlight := resource "r_highlight.html" (snd styles) in
        let vars := <["r_highlight" := fst highlight]> vars in
        let st := snd highlight in
        let mathjax :=
          if isMathJaxRequired helpDoc then
            let r := localMathjax (resourceFileAsString (disk st)) (cache_ st) in
            (fst r, withCache (snd r) st)
          else ("", st) in
        let vars := <["mathjax" := fst mathjax]> vars in
        let st := snd mathjax in
        let vars := <["content" := helpDoc]> vars in
        let vars := <["js_callbacks" := jsCallbacks]> vars in
        let template := resource "presentation/helpdoc.html" st in
        ([SetNoCacheHeaders; SetBodyFiltered (fst template) vars], snd template)
    end.

(** [handlePresentationPaneRequest]. *)
Definition handlePresentationPaneRequest (request : Request) (st : PState)
  : list ResponseAction * PState :=
  if negb presentationIsActive then
    ([SetError NotFound (uri request +:+ " not found")], st)
  else
    let path := pathAfterPrefix request "/presentation/" in
    if str_empty path || String.eqb path "zoom" then
      handlePresentationRootRequest path st
    else if Str.starts_with path "revealjs/" then
      let path := pathAfterPrefix request "/presentation/revealjs/" in
      let resPath := complete rResourcesPath "presentation" in
      let filePath := complete resPath ("revealjs/" +:+ path) in
      ([SetFile filePath request], st)
    else if Str.starts_with path "mathjax/" then
      let filePath := childPath (parent mathjaxPath) path in
      ([SetFile filePath request], st)
    else
      let targetFile := childPath presentationDirectory path in
      if negb (str_empty (headerValue request "Range")) then
        let r := handleRangeRequest targetFile request (disk st) (s_cache st) in
        (fst r, mkPState (cache_ st) (snd r) (s_presentationHelpDir st) (disk st))
      else
        ([AddHeader "Accept-Ranges" "bytes"; SetFile targetFile request], st).

(** [handlePresentationHelpRequest]. *)
Definition handlePresentationHelpRequest (request : Request)
    (jsCallbacks : string) (st : PState) : list ResponseAction * PState :=
  let file := queryParamValue request "file" in
  if negb (str_empty file) then
    let filePath := resolveAliasedPath file in
    if negb (exists_ (disk st) filePath) then
      ([SetError NotFound (uri request)], st)
    else
      let st := mkPState (cache_ st) (s_cache st) (parent filePath) (disk st) in
      if String.eqb (mimeContentType filePath) "text/x-markdown"
         || String.eqb (mimeContentType filePath) "text/x-r-markdown" then
        handlePresentationHelpMarkdownRequest filePath jsCallbacks st
      else
        ([SetFile filePath request], st)
  else
    if negb (exists_ (disk st) (s_presentationHelpDir st)) then
      ([SetError NotFound
          ("Directory not found: " +:+ s_presentationHelpDir st)], st)
    else
      let path := pathAfterPrefix request "/help/presentation/" in
      ([SetFile (complete (s_presentationHelpDir st) path) request], st).

End Handlers.

End Presentation.

(** ** A platform to run the presentation handlers on *)

Module Sample.

(** The name of a file without its directory, and without its extension. *)
Fixpoint basename (p : string) : string :=
  match p with
  | EmptyString => ""
  | String c rest =>
      if Host.contains "/" rest then basename rest
      else if Ascii.eqb c Gcc.slash then rest else p
  end.

Fixpoint withoutExtension (s : string) : string :=
  match s with
  | EmptyString => ""
  | String c rest =>
      if Host.contains "." rest then String c (withoutExtension rest)
      else if Ascii.eqb c (ascii_of_nat 46) then "" else s
  end.

(** A disk maps a path to the time of its last write and its text. R, knitr,
    the outcome of the process and the exception of the template stream are
    given; the presentation is in /pres and the resources in /res. *)
Definition platform (rscript : string + FilePath) (knitr : string + bool)
    (run : string + Presentation.ProcessResult) (throws : option string)
    (active : bool) : Presentation.Platform :=
  {| Presentation.Disk := gmap string (Z * string);
     Presentation.parent := Host.directory;
     Presentation.childPath := fun d n => d +:+ "/" +:+ n;
     Presentation.complete := fun d n => d +:+ "/" +:+ n;
     Presentation.stem := fun p => withoutExtension (basename p);
     Presentation.filename := basename;
     Presentation.mimeContentType := fun p =>
       if ends_with p ".Rmd" then "text/x-r-markdown"
       else if ends_with p ".md" then "text/x-markdown"
       else "text/plain";
     Presentation.utf8ToSystem := fun s => s;
     Presentation.exists_ := fun d p => bool_decide (is_Some (d !! p));
     Presentation.lastWriteTime := fun d p => from_option fst 0%Z (d !! p);
     Presentation.fileInfo := fun d p =>
       Presentation.mkFileInfo p (from_option fst 0%Z (d !! p));
     Presentation.readStringFromFile := fun d p old =>
       match d !! p with
       | Some entry => (None, snd entry)
       | None => (Some "cannot open file", old)
       end;
     Presentation.removeIfExists := fun p d => (None, delete p d);
     Presentation.open_w := fun p d => (None, <[p := (0%Z, "")]> d);
     Presentation.resourceFileAsString := fun d path =>
       from_option snd "" (d !! ("/res/" +:+ path));
     Presentation.rScriptPath := fun _ => rscript;
     Presentation.callHasKnitrVersion1 := fun _ => knitr;
     Presentation.defaultEncoding := "UTF-8";
     Presentation.runProgram := fun _ _ _ _ d => (run, d);
     Presentation.presentationDirectory := "/pres";
     Presentation.presentationIsActive := active;
     Presentation.readSlides := fun _ _ => inr (Presentation.mkSlideDeck "Deck" "linear");
     Presentation.renderSlides := fun _ =>
       inr (Presentation.mkRenderedSlides "<section></section>" "" "" "");
     Presentation.isMathJaxRequired := fun _ => false;
     Presentation.renderTemplate := fun template _ _ => (template, throws);
     Presentation.written := fun p text d => <[p := (1%Z, text)]> d;
     Presentation.markdownToHTML := fun d p =>
       match d !! p with
       | Some entry => inr (snd entry)
       | None => inl "cannot open file"
       end;
     Presentation.defaultTitle := fun doc => doc;
     Presentation.programModeIsDesktop := false;
     Presentation.rResourcesPath := "/res";
     Presentation.mathjaxPath := "/res/mathjax";
     Presentation.pathAfterPrefix := fun request prefix =>
       default "" (Gcc.strip_prefix prefix (Presentation.uri request));
     Presentation.resolveAliasedPath := fun p => p |}.

(** A platform where everything works. *)
Definition working : Presentation.Platform :=
  platform (inr "/usr/bin/Rscript") (inr true)
           (inr (Presentation.mkProcessResult 0 "")) None true.

(** A presentation with slides.md only, one video, and the template. *)
Definition disk0 : gmap string (Z * string) :=
  {[ "/pres" := (0%Z, "");
     "/pres/slides.md" := (10%Z, "Slides");
     "/pres/movie.mp4" := (20%Z, "frames");
     "/res/presentation/slides.html" := (1%Z, "<html>#!slides#</html>") ]}.

(** The same with other frames in the video and the time of its last write
    unchanged. *)
Definition diskChanged : gmap string (Z * string) :=
  <["/pres/movie.mp4" := (20%Z, "other frames")]> disk0.

(** The same with a slides.Rmd written at a given time. *)
Definition diskWithRmd (time : Z) : gmap string (Z * string) :=
  <["/pres/slides.Rmd" := (time, "Slides in R markdown")]> disk0.

(** A platform without R, and one whose template stream throws. *)
Definition withoutR : Presentation.Platform :=
  platform (inl "R was not found") (inr true)
           (inr (Presentation.mkProcessResult 0 "")) None true.

Definition throwing : Presentation.Platform :=
  platform (inr "/usr/bin/Rscript") (inr true)
           (inr (Presentation.mkProcessResult 0 "")) (Some "write failed") true.

(** Requests: a plain one for the video, and two of the help. *)
Definition movieRequest : Presentation.Request :=
  Presentation.mkRequest "/presentation/movie.mp4" [] [].

Definition helpFileRequest : Presentation.Request :=
  Presentation.mkRequest "/help/presentation/" [] [("file", "/pres/movie.mp4")].

Definition helpRelativeRequest : Presentation.Request :=
  Presentation.mkRequest "/help/presentation/poster.png" [] [].

Definition state0 : Presentation.PState (P := working) :=
  Presentation.mkPState (P := working) ∅ Presentation.clearedRangeFileCache "" disk0.

End Sample.

(** ** Facts about the string helpers *)

Lemma str_empty_true (s : string) : str_empty s = true <-> s = "".
Proof. destruct s; simpl; split; congruence. Qed.

Lemma str_empty_false (s : string) : str_empty s = false <-> s <> "".
Proof. destruct s; simpl; split; congruence. Qed.

Lemma append_cons (a : ascii) (s t : string) :
  String a s +:+ t = String a (s +:+ t).
Proof. reflexivity. Qed.

Lemma append_nil_l (s : string) : "" +:+ s = s.
Proof. reflexivity. Qed.

Lemma append_empty_r (s : string) : s +:+ "" = s.
Proof.
  induction s as [|a s IH]; [reflexivity |].
  rewrite append_cons. f_equal. exact IH.
Qed.

Lemma append_assoc (a b c : string) : (a +:+ b) +:+ c = a +:+ (b +:+ c).
Proof.
  induction a as [|x a IH]; [reflexivity |].
  rewrite !append_cons. f_equal. exact IH.
Qed.

(** [ends_with] is the suffix test. *)
Lemma ends_with_spec (input test : string) :
  ends_with input test = true <-> exists front, input = front +:+ test.
Proof.
  induction input as [|a rest IH]; cbn [ends_with].
  - rewrite orb_false_r, String.eqb_eq. split.
    + intros <-. now exists "".
    + intros [front E]. destruct front; [exact E | discriminate E].
  - rewrite orb_true_iff, String.eqb_eq, IH. split.
    + intros [<- | [front ->]]; [now exists "" | now exists (String a front)].
    + intros [front E]. destruct front as [|b front].
      * now left.
      * rewrite append_cons in E. injection E as -> ->. right. now exists front.
Qed.

Lemma ends_with_append (front test : string) : ends_with (front +:+ test) test = true.
Proof. apply ends_with_spec. now exists front. Qed.

Example ends_with_abc_nl : ends_with ("abc" +:+ newline) newline = true.
Proof. reflexivity. Qed.

Example ends_with_abc : ends_with "abc" newline = false.
Proof. reflexivity. Qed.

Example ends_with_none : ends_with "" newline = false.
Proof. reflexivity. Qed.

(** ** How the operations act on a world *)

(** Running the monad on an explicit world, and putting a log in normal form. *)
Ltac run_monad :=
  cbv [exec bind when ret modify getContext putContext emit
       getenv setenv connect disconnect scheduleDelayedWork
       fst snd context environment slots delayedWork effects
       sourceFile_ showOutput_ fromCode_ consoleOutputBuffer_ consoleErrorBuffer_
       previousPath_ rToolsWarning_ set_sourceFile set_showOutput set_fromCode
       set_consoleOutputBuffer set_consoleErrorBuffer set_previousPath
       set_rToolsWarning negb andb orb str_empty withContext appendTo
       addOutput emptySourceCppState idleContext emptyFilePath
       targetFile errors outputs pathOf].

Ltac tidy_log :=
  repeat rewrite <- app_assoc; cbn [app]; rewrite ?app_nil_r.

Section SessionFacts.
Context {host : Collaborators}.

Lemma appendTo_empty type c : appendTo type "" c = c.
Proof.
  destruct c, type; unfold appendTo, set_consoleOutputBuffer, set_consoleErrorBuffer;
    cbn; now rewrite append_empty_r.
Qed.

Lemma appendTo_appendTo type a b c :
  appendTo type b (appendTo type a c) = appendTo type (a +:+ b) c.
Proof.
  destruct c, type; unfold appendTo, set_consoleOutputBuffer, set_consoleErrorBuffer;
    cbn; now rewrite append_assoc.
Qed.

Lemma withContext_same w : withContext (context w) w = w.
Proof. now destruct w. Qed.

Lemma onConsoleOutput_eq type output w :
  onConsoleOutput type output w
  = (tt, withContext (appendTo type (storedChunk output) (context w)) w).
Proof. now destruct type. Qed.

Lemma repeatM_onConsoleOutput n type output w :
  repeatM n (onConsoleOutput type output) w
  = (tt, withContext (appendTo type (repeated n (storedChunk output)) (context w)) w).
Proof.
  revert w. induction n as [|n IH]; intros w.
  - cbn. now rewrite appendTo_empty, withContext_same.
  - cbn [repeatM repeated]. unfold bind at 1. rewrite onConsoleOutput_eq.
    rewrite IH. cbn [withContext context environment slots delayedWork effects].
    now rewrite appendTo_appendTo.
Qed.

Lemma fireConsoleOutput_eq type output w :
  fireConsoleOutput type output w
  = (tt, withContext
           (appendTo type (repeated (slots w) (storedChunk output)) (context w)) w).
Proof. unfold fireConsoleOutput. apply repeatM_onConsoleOutput. Qed.

(** The whole of [handleBuildComplete] on a world. *)
Lemma handleBuildComplete_eq succeeded output w :
  exec (handleBuildComplete succeeded output) w =
  let c := context w in
  let restore := negb (str_empty (previousPath_ c)) in
  let warn := negb succeeded && negb (str_empty (rToolsWarning_ c)) in
  let errorOutput :=
    if warn && consoleWriteErrorFires
    then consoleErrorBuffer_ c +:+ repeated (slots w) (storedChunk (rToolsWarning_ c))
    else consoleErrorBuffer_ c in
  let buildOutput :=
    if negb succeeded || showOutput_ c then consoleOutputBuffer_ c else output in
  {| context := idleContext;
     environment :=
       if restore then <["PATH" := previousPath_ c]> (environment w)
       else environment w;
     slots := 0;
     delayedWork := delayedWork w;
     effects :=
       effects w
       ++ (if restore then [Setenv "PATH" (previousPath_ c)] else [])
       ++ (if warn then [ConsoleWriteError (rToolsWarning_ c)] else [])
       ++ (if fromCode_ c then []
           else [EnqueClientEvent (kSourceCppCompleted
                   {| targetFile := createAliasedPath (sourceFile_ c);
                      errors := gccErrorParser (parent (sourceFile_ c))
                                  (buildOutput +:+ newline +:+ errorOutput);
                      outputs := [mkBuildOutput kBuildOutputNormal buildOutput;
                                  mkBuildOutput kBuildOutputError errorOutput] |})]) |}.
Proof.
  destruct w as [[f so fc ob eb pp rw] env n dw eff].
  unfold handleBuildComplete, consoleWriteError, reset, enqueSourceCppCompleted.
  cbn [context previousPath_ rToolsWarning_ fromCode_ showOutput_ sourceFile_
       consoleOutputBuffer_ consoleErrorBuffer_ slots environment effects delayedWork].
  destruct pp as [|p0 pp], succeeded, rw as [|r0 rw],
    consoleWriteErrorFires, fc; run_monad;
    rewrite ?fireConsoleOutput_eq; run_monad; tidy_log; reflexivity.
Qed.

(** The whole of [onBuild] on a world. *)
Lemma onBuild_eq sourceFile fromCode showOutput w :
  onBuild sourceFile fromCode showOutput w =
  let path := pathOf w in
  let fixup := addRtoolsToPathIfNecessary path "" in
  (true,
   {| context :=
        mkContext sourceFile showOutput fromCode "" ""
                  (if fst fixup then path else "") (snd (snd fixup));
      environment :=
        if fst fixup then <["PATH" := fst (snd fixup)]> (environment w)
        else environment w;
      slots := 1;
      delayedWork := delayedWork w;
      effects :=
        effects w
        ++ (if fst fixup then [Setenv "PATH" (fst (snd fixup))] else [])
        ++ [EnqueClientEvent kSourceCppStarted] |}).
Proof.
  destruct w as [[f so fc ob eb pp rw] env n dw eff].
  unfold onBuild, reset, enqueSourceCppStarted. run_monad.
  destruct (addRtoolsToPathIfNecessary (default "" (env !! "PATH")) "")
    as [[|] [newPath warning]]; run_monad; tidy_log; reflexivity.
Qed.

Lemma run_cons c cs w : exec (run (c :: cs)) w = exec (run cs) (exec (step c) w).
Proof. unfold exec. cbn [run]. unfold bind. now destruct (step c w). Qed.

Lemma run_nil w : exec (run []) w = w.
Proof. reflexivity. Qed.

Lemma run_app cs1 cs2 w :
  exec (run (cs1 ++ cs2)) w = exec (run cs2) (exec (run cs1) w).
Proof.
  revert w. induction cs1 as [|c cs1 IH]; intros w; [reflexivity |].
  cbn [app]. now rewrite !run_cons, IH.
Qed.

Lemma step_onBuild f fromCode showOutput w :
  exec (step (CallOnBuild f fromCode showOutput)) w
  = snd (onBuild f fromCode showOutput w).
Proof.
  unfold exec. cbn [step]. unfold bind, ret.
  now destruct (onBuild f fromCode showOutput w).
Qed.

Lemma step_consoleOutput type output w :
  exec (step (ConsoleOutput type output)) w
  = withContext
      (appendTo type (repeated (slots w) (storedChunk output)) (context w)) w.
Proof. unfold exec, step. now rewrite fireConsoleOutput_eq. Qed.

Lemma step_onBuildComplete succeeded output w :
  exec (step (CallOnBuildComplete succeeded output)) w
  = {| context := context w; environment := environment w; slots := slots w;
       delayedWork := delayedWork w ++ [(200%Z, (succeeded, output))];
       effects := effects w |}.
Proof. reflexivity. Qed.

Lemma step_timerFires w :
  exec (step TimerFires) w
  = match delayedWork w with
    | [] => w
    | (_, (succeeded, output)) :: rest =>
        exec (handleBuildComplete succeeded output)
          {| context := context w; environment := environment w;
             slots := slots w; delayedWork := rest; effects := effects w |}
    end.
Proof.
  unfold exec, step, runDelayedWork.
  destruct (delayedWork w) as [|[period [succeeded output]] rest]; reflexivity.
Qed.

Lemma pathOf_withContext c w : pathOf (withContext c w) = pathOf w.
Proof. reflexivity. Qed.

(** Chunks that arrive while one slot is connected pile up in their buffers
    and touch nothing else. *)
Lemma run_deliver chunks w :
  slots w = 1 ->
  exec (run (deliver chunks)) w
  = withContext
      (appendTo ConsoleOutputError (captured ConsoleOutputError chunks)
         (appendTo ConsoleOutputNormal (captured ConsoleOutputNormal chunks)
            (context w))) w.
Proof.
  revert w. induction chunks as [|[type output] chunks IH]; intros w Hs.
  - cbn [deliver map captured]. rewrite run_nil, !appendTo_empty.
    now rewrite withContext_same.
  - cbn [deliver map fst snd]. rewrite run_cons, step_consoleOutput, Hs.
    change (map _ chunks) with (deliver chunks).
    rewrite IH by exact Hs.
    cbn [repeated]. rewrite append_empty_r.
    destruct w as [[f so fc ob eb pp rw] env n dw eff], type;
      cbn [withContext context environment slots delayedWork effects appendTo
           captured set_consoleOutputBuffer set_consoleErrorBuffer
           sourceFile_ showOutput_ fromCode_ consoleOutputBuffer_
           consoleErrorBuffer_ previousPath_ rToolsWarning_];
      now rewrite ?append_assoc.
Qed.

End SessionFacts.

(** ** The completion handler *)

Section Finalize.
Context {host : Collaborators}.

(** What [handleBuildComplete] adds to the log: the restore of PATH, the
    toolchain warning, the completed event, in this order. *)
Lemma emittedBy_handleBuildComplete succeeded output w :
  emittedBy (handleBuildComplete succeeded output) w =
  let c := context w in
  let warn := negb succeeded && negb (str_empty (rToolsWarning_ c)) in
  let errorOutput :=
    if warn && consoleWriteErrorFires
    then consoleErrorBuffer_ c +:+ repeated (slots w) (storedChunk (rToolsWarning_ c))
    else consoleErrorBuffer_ c in
  let buildOutput :=
    if negb succeeded || showOutput_ c then consoleOutputBuffer_ c else output in
  (if negb (str_empty (previousPath_ c))
   then [Setenv "PATH" (previousPath_ c)] else [])
  ++ (if warn then [ConsoleWriteError (rToolsWarning_ c)] else [])
  ++ (if fromCode_ c then []
      else [EnqueClientEvent (kSourceCppCompleted
              {| targetFile := createAliasedPath (sourceFile_ c);
                 errors := gccErrorParser (parent (sourceFile_ c))
                             (buildOutput +:+ newline +:+ errorOutput);
                 outputs := [mkBuildOutput kBuildOutputNormal buildOutput;
                             mkBuildOutput kBuildOutputError errorOutput] |})]).
Proof.
  unfold emittedBy. rewrite handleBuildComplete_eq.
  cbv zeta. cbn [effects]. apply drop_app_length.
Qed.

(** C1, as the code has it. The completion handler emits the completed event,
    with the diagnostics parsed from the selected output, a newline and the
    error buffer, exactly when the build was not started from code; a build
    from code gets neither the parse nor the event. Whatever the flags and
    the outcome, every field of the session is cleared afterwards and the
    console slot is disconnected. *)
Theorem completed_event_only_without_fromCode
    (succeeded : bool) (output : string) (w : World) :
  let c := context w in
  let warn := negb succeeded && negb (str_empty (rToolsWarning_ c)) in
  let errorOutput :=
    if warn && consoleWriteErrorFires
    then consoleErrorBuffer_ c +:+ repeated (slots w) (storedChunk (rToolsWarning_ c))
    else consoleErrorBuffer_ c in
  let buildOutput :=
    if negb succeeded || showOutput_ c then consoleOutputBuffer_ c else output in
  let after := exec (handleBuildComplete succeeded output) w in
  completedOf (emittedBy (handleBuildComplete succeeded output) w)
  = (if fromCode_ c then []
     else [{| targetFile := createAliasedPath (sourceFile_ c);
              errors := gccErrorParser (parent (sourceFile_ c))
                          (buildOutput +:+ newline +:+ errorOutput);
              outputs := [mkBuildOutput kBuildOutputNormal buildOutput;
                          mkBuildOutput kBuildOutputError errorOutput] |}])
  /\ context after = idleContext
  /\ slots after = 0.
Proof.
  cbv zeta. rewrite emittedBy_handleBuildComplete, handleBuildComplete_eq.
  cbv zeta. cbn [context slots]. split; [| split; reflexivity].
  destruct (previousPath_ (context w)), succeeded, (rToolsWarning_ (context w)),
    (fromCode_ (context w)); reflexivity.
Qed.

(** C2, as the code has it. The text selected for the completed event is
    [consoleOutputBuffer_] alone when the build failed or [showOutput] was
    asked for, and the output that the tool reported otherwise; the error
    buffer is not part of it. In the scenario of a successful build of
    x.cpp without [showOutput] and not from code, with the chunk
    "compiling" and the reported output "done", the one completed event
    carries "done" as its normal output. *)
Theorem selected_output_is_consoleOutputBuffer :
  (forall (succeeded : bool) (output : string) (w : World),
     let c := context w in
     map (fun data => head (outputs data))
         (completedOf (emittedBy (handleBuildComplete succeeded output) w))
     = if fromCode_ c then []
       else [Some (mkBuildOutput kBuildOutputNormal
                     (if negb succeeded || showOutput_ c
                      then consoleOutputBuffer_ c else output))])
  /\ (forall env : gmap string string,
        map (fun data => head (outputs data))
            (completedOf (effects (exec
               (run [CallOnBuild "x.cpp" false false;
                     ConsoleOutput ConsoleOutputNormal ("compiling" +:+ newline);
                     CallOnBuildComplete true "done";
                     TimerFires])
               (initialWorld env))))
        = [Some (mkBuildOutput kBuildOutputNormal "done")]).
Proof.
  split.
  - intros succeeded output w. cbv zeta. rewrite emittedBy_handleBuildComplete.
    cbv zeta.
    destruct (previousPath_ (context w)), succeeded, (rToolsWarning_ (context w)),
      (fromCode_ (context w)); reflexivity.
  - intros env. rewrite !run_cons, run_nil, step_onBuild, onBuild_eq.
    cbv zeta. cbn [snd]. rewrite step_consoleOutput, step_onBuildComplete.
    rewrite step_timerFires.
    cbv [withContext delayedWork context environment slots effects initialWorld
         app snd fst].
    rewrite handleBuildComplete_eq. unfold initialWorld. run_monad.
    destruct (addRtoolsToPathIfNecessary (default "" (env !! "PATH")) "")
      as [[|] [newPath warning]]; run_monad;
      destruct (default "" (env !! "PATH")); reflexivity.
Qed.

(** C7. The completion handler writes the toolchain warning to the error
    stream of the console exactly when the build failed and the warning is
    not empty; nothing else is ever written there, so a successful build or
    an empty warning writes nothing. *)
Theorem warning_written_iff_failed_and_present
    (succeeded : bool) (output : string) (w : World) :
  let warning := rToolsWarning_ (context w) in
  let written := writtenErrors (emittedBy (handleBuildComplete succeeded output) w) in
  written = (if negb succeeded && negb (str_empty warning) then [warning] else [])
  /\ (written <> [] <-> succeeded = false /\ warning <> "").
Proof.
  cbv zeta. rewrite emittedBy_handleBuildComplete. cbv zeta.
  destruct (previousPath_ (context w)) as [|p0 saved], succeeded,
    (rToolsWarning_ (context w)) as [|r0 warning], (fromCode_ (context w));
    cbn; (split; [reflexivity |]); intuition congruence.
Qed.

(** C10. Every completed event that the completion handler emits has exactly
    two outputs: first the normal one with the selected build output, then
    the error one with the console error buffer as it is when the event is
    built, that is with the toolchain warning behind it when the warning was
    just written and the console feeds the session back. This is the same
    for a build that succeeded or failed, with or without [showOutput]. *)
Theorem completed_outputs_normal_then_error
    (succeeded : bool) (output : string) (w : World) :
  let c := context w in
  let warn := negb succeeded && negb (str_empty (rToolsWarning_ c)) in
  let errorBuffer :=
    if warn && consoleWriteErrorFires
    then consoleErrorBuffer_ c +:+ repeated (slots w) (storedChunk (rToolsWarning_ c))
    else consoleErrorBuffer_ c in
  let buildOutput :=
    if negb succeeded || showOutput_ c then consoleOutputBuffer_ c else output in
  map outputs (completedOf (emittedBy (handleBuildComplete succeeded output) w))
  = if fromCode_ c then []
    else [[mkBuildOutput kBuildOutputNormal buildOutput;
           mkBuildOutput kBuildOutputError errorBuffer]].
Proof.
  cbv zeta. rewrite emittedBy_handleBuildComplete. cbv zeta.
  destruct (previousPath_ (context w)), succeeded, (rToolsWarning_ (context w)),
    (fromCode_ (context w)); reflexivity.
Qed.

End Finalize.

(** ** The PATH around a build *)

Section Environment.
Context {host : Collaborators}.

Lemma pathOf_insert (value : string) (env : gmap string string) :
  default "" (<["PATH" := value]> env !! "PATH") = value.
Proof. now rewrite lookup_insert_eq. Qed.

(** PATH after the completion handler: the saved value when there is one. *)
Lemma pathOf_handleBuildComplete succeeded output w :
  pathOf (exec (handleBuildComplete succeeded output) w)
  = if str_empty (previousPath_ (context w)) then pathOf w
    else previousPath_ (context w).
Proof.
  rewrite handleBuildComplete_eq. cbv zeta. unfold pathOf. cbn [environment].
  destruct (previousPath_ (context w)) as [|p0 saved]; cbn [str_empty negb];
    [reflexivity | apply pathOf_insert].
Qed.

(** PATH and the saved value after [onBuild]. *)
Lemma pathOf_onBuild f fromCode showOutput w :
  pathOf (snd (onBuild f fromCode showOutput w))
  = if fst (addRtoolsToPathIfNecessary (pathOf w) "")
    then fst (snd (addRtoolsToPathIfNecessary (pathOf w) ""))
    else pathOf w.
Proof.
  rewrite onBuild_eq. cbv zeta. cbn [snd]. unfold pathOf at 1. cbn [environment].
  destruct (fst (addRtoolsToPathIfNecessary (pathOf w) ""));
    [apply pathOf_insert | reflexivity].
Qed.

Lemma previousPath_onBuild f fromCode showOutput w :
  previousPath_ (context (snd (onBuild f fromCode showOutput w)))
  = if fst (addRtoolsToPathIfNecessary (pathOf w) "") then pathOf w else "".
Proof. rewrite onBuild_eq. reflexivity. Qed.

Lemma slots_onBuild f fromCode showOutput w :
  slots (snd (onBuild f fromCode showOutput w)) = 1.
Proof. rewrite onBuild_eq. reflexivity. Qed.

Lemma previousPath_appendTo type text c :
  previousPath_ (appendTo type text c) = previousPath_ c.
Proof. now destruct type. Qed.

(** A start and the chunks that follow it, as one world. *)
Lemma run_start f fromCode showOutput chunks w :
  exec (run (CallOnBuild f fromCode showOutput :: deliver chunks)) w
  = withContext
      (appendTo ConsoleOutputError (captured ConsoleOutputError chunks)
         (appendTo ConsoleOutputNormal (captured ConsoleOutputNormal chunks)
            (context (snd (onBuild f fromCode showOutput w)))))
      (snd (onBuild f fromCode showOutput w)).
Proof.
  rewrite run_cons, step_onBuild. apply run_deliver, slots_onBuild.
Qed.

(** Each call keeps: nothing is saved, or the fix-up is in force. *)
Lemma step_keeps_patchInForce c w :
  previousPath_ (context w) = "" \/ patchInForce w ->
  previousPath_ (context (exec (step c) w)) = "" \/ patchInForce (exec (step c) w).
Proof.
  intros Hw. destruct c as [f fromCode showOutput | succeeded output | type output |].
  - rewrite step_onBuild. unfold patchInForce.
    rewrite previousPath_onBuild, pathOf_onBuild.
    destruct (fst (addRtoolsToPathIfNecessary (pathOf w) "")) eqn:E;
      [right; now rewrite E | now left].
  - rewrite step_onBuildComplete. exact Hw.
  - rewrite step_consoleOutput. unfold patchInForce.
    cbn [context withContext]. rewrite pathOf_withContext, previousPath_appendTo.
    exact Hw.
  - rewrite step_timerFires.
    destruct (delayedWork w) as [|[period [succeeded output]] rest]; [exact Hw |].
    left. now rewrite handleBuildComplete_eq.
Qed.

Lemma run_keeps_patchInForce cs w :
  previousPath_ (context w) = "" \/ patchInForce w ->
  previousPath_ (context (exec (run cs) w)) = ""
  \/ patchInForce (exec (run cs) w).
Proof.
  revert w. induction cs as [|c cs IH]; intros w Hw; [exact Hw |].
  rewrite run_cons. apply IH, step_keeps_patchInForce, Hw.
Qed.

Lemma setenvsOf_app (a b : list Effect) :
  setenvsOf (a ++ b) = setenvsOf a ++ setenvsOf b.
Proof. apply omap_app. Qed.

(** A build from its start to its own completion handler, with the chunks
    that arrive before and after the completion is signalled: the handler
    runs on the session of that start, with what that start saved. *)
Lemma run_build f fromCode showOutput chunks succeeded output late w0 :
  delayedWork w0 = [] ->
  exists c,
    previousPath_ c = previousPath_ (context (snd (onBuild f fromCode showOutput w0)))
    /\ exec (run (CallOnBuild f fromCode showOutput :: deliver chunks
                  ++ CallOnBuildComplete succeeded output :: deliver late
                  ++ [TimerFires])) w0
       = exec (handleBuildComplete succeeded output)
           (withContext c (snd (onBuild f fromCode showOutput w0))).
Proof.
  intros Hpending.
  rewrite app_comm_cons, run_app, run_start, onBuild_eq.
  cbv zeta. cbn [snd]. rewrite Hpending.
  rewrite run_cons, step_onBuildComplete, run_app.
  rewrite run_deliver by reflexivity.
  rewrite run_cons, run_nil, step_timerFires.
  cbn [withContext context environment slots delayedWork effects app].
  eexists. split; [| reflexivity].
  now rewrite !previousPath_appendTo.
Qed.

(** C4, as the code has it. In every world that the session reaches from the
    start of the process, [previousPath_] is empty or the PATH fix-up it was
    saved for is in force. Every run of the completion handler, whatever the
    outcome and the flags, begins with the restore: when a value is saved
    its first effect is to set PATH to it, it sets the environment at no
    other point, PATH holds the saved value afterwards, and the saved value
    is empty again. A build that runs from its start to its own completion
    handler with no other start in between, on a process whose PATH is not
    empty and with no completion pending, saves the old PATH exactly when
    the fix-up applies; its only changes of the environment are then the
    patch followed by one restore of the old PATH, and none otherwise; PATH
    ends as it began and nothing stays saved. *)
Theorem restore_once_per_undisturbed_build :
  (forall (env : gmap string string) (cs : list Call),
     previousPath_ (context (exec (run cs) (initialWorld env))) = ""
     \/ patchInForce (exec (run cs) (initialWorld env)))
  /\ (forall (succeeded : bool) (output : string) (w : World),
        let saved := previousPath_ (context w) in
        let after := exec (handleBuildComplete succeeded output) w in
        (exists rest,
            emittedBy (handleBuildComplete succeeded output) w
            = (if str_empty saved then [] else [Setenv "PATH" saved]) ++ rest
            /\ setenvsOf rest = [])
        /\ pathOf after = (if str_empty saved then pathOf w else saved)
        /\ previousPath_ (context after) = "")
  /\ (forall (f : FilePath) (fromCode showOutput : bool)
             (chunks late : list (ConsoleOutputType * string))
             (succeeded : bool) (output : string) (w0 : World),
        pathOf w0 <> "" ->
        delayedWork w0 = [] ->
        let fixup := addRtoolsToPathIfNecessary (pathOf w0) "" in
        let build :=
          CallOnBuild f fromCode showOutput :: deliver chunks
          ++ CallOnBuildComplete succeeded output :: deliver late
          ++ [TimerFires] in
        previousPath_
          (context (exec (run (CallOnBuild f fromCode showOutput :: deliver chunks)) w0))
        = (if fst fixup then pathOf w0 else "")
        /\ setenvsOf (emittedBy (run build) w0)
           = (if fst fixup
              then [("PATH", fst (snd fixup)); ("PATH", pathOf w0)]
              else [])
        /\ pathOf (exec (run build) w0) = pathOf w0
        /\ previousPath_ (context (exec (run build) w0)) = "").
Proof.
  split; [| split].
  - intros env cs. apply run_keeps_patchInForce. now left.
  - intros succeeded output w. cbv zeta. split; [| split].
    + rewrite emittedBy_handleBuildComplete. cbv zeta.
      eexists. split.
      * destruct (str_empty (previousPath_ (context w))); cbn [negb]; reflexivity.
      * destruct succeeded, (rToolsWarning_ (context w)), (fromCode_ (context w));
          reflexivity.
    + apply pathOf_handleBuildComplete.
    + now rewrite handleBuildComplete_eq.
  - intros f fromCode showOutput chunks late succeeded output w0 Hpath Hpending.
    cbv zeta. split.
    { rewrite run_start. cbn [context withContext].
      now rewrite !previousPath_appendTo, previousPath_onBuild. }
    destruct (run_build f fromCode showOutput chunks succeeded output late w0 Hpending)
      as (c & Hsaved & Hrun).
    unfold emittedBy. rewrite Hrun. clear Hrun.
    rewrite previousPath_onBuild in Hsaved.
    apply str_empty_false in Hpath.
    rewrite pathOf_handleBuildComplete, handleBuildComplete_eq. cbv zeta.
    cbn [context withContext effects environment]. rewrite Hsaved.
    rewrite pathOf_withContext, pathOf_onBuild.
    rewrite onBuild_eq. cbv zeta. cbn [snd effects].
    rewrite <- !app_assoc, drop_app_length, !setenvsOf_app.
    destruct (fst (addRtoolsToPathIfNecessary (pathOf w0) "")).
    + rewrite Hpath. cbn [negb].
      destruct (negb succeeded && negb (str_empty (rToolsWarning_ c))), (fromCode_ c);
        repeat split; reflexivity.
    + cbn [str_empty negb].
      destruct (negb succeeded && negb (str_empty (rToolsWarning_ c))), (fromCode_ c);
        repeat split; reflexivity.
Qed.

(** One build, from [onBuild] over the console chunks to the completion
    handler, leaves a non-empty PATH as it found it, whether the fix-up
    changed it or not. *)
Lemma build_restores_nonempty_PATH f fromCode showOutput chunks succeeded output w :
  pathOf w <> "" ->
  pathOf (exec (handleBuildComplete succeeded output)
            (exec (run (CallOnBuild f fromCode showOutput :: deliver chunks)) w))
  = pathOf w.
Proof.
  intros Hpath. rewrite pathOf_handleBuildComplete, run_start.
  cbn [context withContext]. rewrite pathOf_withContext, !previousPath_appendTo.
  rewrite previousPath_onBuild, pathOf_onBuild.
  destruct (fst (addRtoolsToPathIfNecessary (pathOf w) "")).
  - apply str_empty_false in Hpath. now rewrite Hpath.
  - reflexivity.
Qed.

(** With nothing saved the completion handler leaves the environment alone. *)
Lemma restore_without_patch succeeded output w :
  previousPath_ (context w) = "" ->
  environment (exec (handleBuildComplete succeeded output) w) = environment w
  /\ setenvsOf (emittedBy (handleBuildComplete succeeded output) w) = [].
Proof.
  intros Hsaved. rewrite emittedBy_handleBuildComplete, handleBuildComplete_eq.
  cbv zeta. cbn [environment]. rewrite Hsaved. split; [reflexivity |].
  destruct succeeded, (rToolsWarning_ (context w)), (fromCode_ (context w));
    reflexivity.
Qed.

(** C5. After any earlier calls, a start followed by console chunks leaves a
    session that holds the file and the flags of that start, in each buffer
    the chunks of its channel that came after the start, in order, and the
    warning that the fix-up of that start gave from an empty one; nothing of
    an earlier session is in it. *)
Theorem start_discards_prior_session
    (earlier : list Call) (f : FilePath) (fromCode showOutput : bool)
    (chunks : list (ConsoleOutputType * string)) (w0 : World) :
  let before := exec (run earlier) w0 in
  let fixup := addRtoolsToPathIfNecessary (pathOf before) "" in
  context (exec (run (earlier ++ CallOnBuild f fromCode showOutput :: deliver chunks)) w0)
  = {| sourceFile_ := f;
       showOutput_ := showOutput;
       fromCode_ := fromCode;
       consoleOutputBuffer_ := captured ConsoleOutputNormal chunks;
       consoleErrorBuffer_ := captured ConsoleOutputError chunks;
       previousPath_ := if fst fixup then pathOf before else "";
       rToolsWarning_ := snd (snd fixup) |}.
Proof.
  cbv zeta. rewrite run_app, run_start, onBuild_eq. reflexivity.
Qed.

(** C6, as the code has it. A second start with no completion in between
    forgets what the first start saved: it saves the PATH that the first
    start left, and only if the fix-up changes PATH again. The completion
    handler then brings PATH back to that value, the one before the second
    fix-up, when it is not empty; the value before the first fix-up is not
    recovered. *)
Theorem second_start_saves_anew
    (f1 : FilePath) (fromCode1 showOutput1 : bool)
    (chunks1 : list (ConsoleOutputType * string))
    (f2 : FilePath) (fromCode2 showOutput2 : bool)
    (chunks2 : list (ConsoleOutputType * string))
    (succeeded : bool) (output : string) (w0 : World) :
  pathOf (exec (run (CallOnBuild f1 fromCode1 showOutput1 :: deliver chunks1)) w0) <> "" ->
  let w1 := exec (run (CallOnBuild f1 fromCode1 showOutput1 :: deliver chunks1)) w0 in
  let w2 := exec (run (CallOnBuild f2 fromCode2 showOutput2 :: deliver chunks2)) w1 in
  previousPath_ (context w2)
  = (if fst (addRtoolsToPathIfNecessary (pathOf w1) "") then pathOf w1 else "")
  /\ pathOf (exec (handleBuildComplete succeeded output) w2) = pathOf w1.
Proof.
  intros Hpath. cbv zeta. split.
  - rewrite (run_start f2). cbn [context withContext].
    now rewrite !previousPath_appendTo, previousPath_onBuild.
  - now apply build_restores_nonempty_PATH.
Qed.

End Environment.

(** ** Console capture *)

Section Console.
Context {host : Collaborators}.

(** C8. Under [_WIN32], where both channels come in on one stream, a chunk
    that does not end with a newline is stored with exactly one newline
    behind it and a chunk that ends with one is stored as it is; what is
    stored always ends with a newline, so storing it again changes nothing.
    The chunk goes to the end of the buffer of its own channel and the rest
    of the session is untouched. *)
Theorem onConsoleOutput_newline_under_win32
    (type : ConsoleOutputType) (output : string) (w : World) :
  win32 = true ->
  storedChunk output
  = (if ends_with output newline then output else output +:+ newline)
  /\ ends_with (storedChunk output) newline = true
  /\ storedChunk (storedChunk output) = storedChunk output
  /\ exec (onConsoleOutput type output) w
     = withContext (appendTo type (storedChunk output) (context w)) w
  /\ bufferOf type (context (exec (onConsoleOutput type output) w))
     = bufferOf type (context w) +:+ storedChunk output.
Proof.
  intros Hwin.
  assert (Hstored : storedChunk output
                    = if ends_with output newline then output else output +:+ newline).
  { unfold storedChunk. rewrite Hwin. cbn [andb].
    now destruct (ends_with output newline). }
  assert (Hends : ends_with (storedChunk output) newline = true).
  { rewrite Hstored. destruct (ends_with output newline) eqn:E;
      [exact E | apply ends_with_append]. }
  repeat split.
  - exact Hstored.
  - exact Hends.
  - unfold storedChunk at 1. now rewrite Hends, andb_false_r.
  - unfold exec. now rewrite onConsoleOutput_eq.
  - unfold exec. rewrite onConsoleOutput_eq. now destruct type.
Qed.

End Console.

Lemma onConsoleOutput_newline_under_win32_witness :
  win32 (Collaborators := Host.windows None) = true
  /\ storedChunk (host := Host.windows None) "abc" = "abc" +:+ newline.
Proof.
  split; [reflexivity |].
  exact (proj1 (onConsoleOutput_newline_under_win32 (host := Host.windows None)
                  ConsoleOutputNormal "abc" Scenario.windowsPath eq_refl)).
Defined.


(** ** The diagnostics parser *)

Section Diagnostics.

Lemma lines_not_empty text : Gcc.lines text <> [].
Proof.
  destruct text as [|c rest]; cbn [Gcc.lines]; [discriminate |].
  destruct (Ascii.eqb c (ascii_of_nat 10)); [discriminate |].
  destruct (Gcc.lines rest); discriminate.
Qed.

(** The lines of two texts joined by a newline are the lines of the first and
    then those of the second. *)
Lemma lines_newline (a b : string) :
  Gcc.lines (a +:+ newline +:+ b) = Gcc.lines a ++ Gcc.lines b.
Proof.
  induction a as [|c a IH]; [reflexivity |].
  rewrite append_cons. cbn [Gcc.lines]. rewrite IH.
  destruct (Ascii.eqb c (ascii_of_nat 10)); [reflexivity |].
  pose proof (lines_not_empty a) as Hne.
  destruct (Gcc.lines a) as [|l ls]; [congruence | reflexivity].
Qed.

Lemma parseLines_app base (ls1 ls2 : list string) :
  Gcc.parseLines base (ls1 ++ ls2)
  = Gcc.parseLines base ls1 ++ Gcc.parseLines base ls2.
Proof.
  induction ls1 as [|l ls1 IH]; [reflexivity |].
  cbn [app Gcc.parseLines]. rewrite IH.
  now destruct (Gcc.parseLine base l).
Qed.

Lemma parseLines_length base (ls : list string) :
  length (Gcc.parseLines base ls) <= length ls.
Proof.
  induction ls as [|l ls IH]; [reflexivity |].
  cbn [Gcc.parseLines]. destruct (Gcc.parseLine base l); cbn [length]; lia.
Qed.

(** C9. On the text of the example the gcc dialect gives the one record of
    its first line, for /a/b/foo.cpp, line 12, column 5, severity error and
    message "expected ';'", and nothing for the second line, also when that
    text is what a failed build of the file left in the error buffer. In
    general the records of a text come in the order of its lines: what is
    before a newline is parsed before what is after it, every line gives its
    record or nothing, and there is a result, with at most one record a line,
    for every text. *)
Theorem gcc_parse_example_and_order :
  (forall base : FilePath,
     Gcc.parse base Scenario.diagnostics
     = [mkCompileError "/a/b/foo.cpp" 12 5 "error" "expected ';'"])
  /\ (forall base : FilePath, Gcc.parseLine base "note: irrelevant line" = None)
  /\ map errors
       (completedOf (emittedBy (handleBuildComplete (host := Host.posix) false "")
                               (Scenario.failedBuild Scenario.diagnostics)))
     = [[mkCompileError "/a/b/foo.cpp" 12 5 "error" "expected ';'"]]
  /\ (forall (base : FilePath) (a b : string),
        Gcc.parse base (a +:+ newline +:+ b) = Gcc.parse base a ++ Gcc.parse base b)
  /\ (forall (base : FilePath) (ls1 ls2 : list string) (l : string),
        Gcc.parseLines base (ls1 ++ l :: ls2)
        = Gcc.parseLines base ls1 ++ option_list (Gcc.parseLine base l)
          ++ Gcc.parseLines base ls2)
  /\ (forall (base : FilePath) (text : string),
        length (Gcc.parse base text) <= length (Gcc.lines text)).
Proof.
  split; [| split; [| split; [| split; [| split]]]].
  - intros base. vm_compute. reflexivity.
  - intros base. vm_compute. reflexivity.
  - vm_compute. reflexivity.
  - intros base a b. unfold Gcc.parse. now rewrite lines_newline, parseLines_app.
  - intros base ls1 ls2 l. rewrite parseLines_app. cbn [Gcc.parseLines].
    now destruct (Gcc.parseLine base l).
  - intros base text. apply parseLines_length.
Qed.

End Diagnostics.

(** ** The claims on concrete worlds *)

Section Concrete.

(** C1, at a build from code: the completion handler runs and emits no
    completed event. *)
Lemma code_build_emits_no_completed_event :
  fromCode_ (context Scenario.codeBuild) = true
  /\ completedOf (emittedBy (handleBuildComplete (host := Host.posix) true "done")
                            Scenario.codeBuild) = [].
Proof. split; vm_compute; reflexivity. Qed.

(** C2, at a failed build that wrote to both channels: the normal output of
    the completed event is not the two buffers one after the other. *)
Lemma failed_build_selects_output_buffer_only :
  map (fun data => head (outputs data))
      (completedOf (emittedBy (handleBuildComplete (host := Host.posix) false "")
                              Scenario.noisyBuild))
  <> [Some (mkBuildOutput 1
              (consoleOutputBuffer_ (context Scenario.noisyBuild)
               +:+ consoleErrorBuffer_ (context Scenario.noisyBuild)))].
Proof. vm_compute. discriminate. Qed.

(** C3, at a Windows process whose PATH is the empty string: the fix-up
    changes PATH, the completion handler finds nothing saved, and PATH keeps
    the toolchain entry after the build. *)
Example empty_PATH_stays_patched :
  pathOf Scenario.emptyPath = ""
  /\ fst (Host.addRtools (Some Scenario.rtools) (pathOf Scenario.emptyPath) "") = true
  /\ pathOf (exec (run (host := Host.windows (Some Scenario.rtools)) Scenario.oneBuild)
                  Scenario.emptyPath)
     = "C:/Rtools/bin;".
Proof. repeat split; vm_compute; reflexivity. Qed.

(** C4, at two builds on a Windows process of which the second starts before
    the first completes: both completion handlers run, each emits its
    completed event, and the environment is set once only, by the patch of
    the first start. Neither build is restored and PATH keeps the toolchain
    entry. *)
Lemma overlapping_builds_are_never_restored :
  length (completedOf
            (effects (exec (run (host := Host.windows (Some Scenario.rtools))
                                Scenario.overlappingBuilds) Scenario.windowsPath))) = 2
  /\ setenvsOf
       (effects (exec (run (host := Host.windows (Some Scenario.rtools))
                           Scenario.overlappingBuilds) Scenario.windowsPath))
     = [("PATH", "C:/Rtools/bin;C:/Windows")]
  /\ pathOf (exec (run (host := Host.windows (Some Scenario.rtools))
                       Scenario.overlappingBuilds) Scenario.windowsPath)
     <> pathOf Scenario.windowsPath.
Proof.
  split; [vm_compute; reflexivity |].
  split; [vm_compute; reflexivity | vm_compute; discriminate].
Qed.

(** One failed build on a Windows process whose PATH lacks the toolchain:
    the environment is set twice, by the patch and by the restore. *)
Lemma restore_once_per_undisturbed_build_witness :
  pathOf Scenario.windowsPath <> ""
  /\ delayedWork Scenario.windowsPath = []
  /\ setenvsOf
       (emittedBy
          (run (host := Host.windows (Some Scenario.rtools))
               (CallOnBuild "C:/p/x.cpp" false false :: deliver []
                ++ CallOnBuildComplete false "" :: deliver []
                ++ [TimerFires]))
          Scenario.windowsPath)
     = (if fst (Host.addRtools (Some Scenario.rtools) (pathOf Scenario.windowsPath) "")
        then [("PATH",
               fst (snd (Host.addRtools (Some Scenario.rtools)
                           (pathOf Scenario.windowsPath) "")));
              ("PATH", pathOf Scenario.windowsPath)]
        else []).
Proof.
  split; [vm_compute; discriminate |]. split; [reflexivity |].
  assert (Hpath : pathOf Scenario.windowsPath <> "") by (vm_compute; discriminate).
  exact (proj1 (proj2
           (proj2 (proj2 (restore_once_per_undisturbed_build
                            (host := Host.windows (Some Scenario.rtools))))
              "C:/p/x.cpp" false false [] [] false "" Scenario.windowsPath
              Hpath eq_refl))).
Defined.

(** C6, at two starts on a Windows process: after the completion handler
    PATH still has the toolchain entry and is not what it was before the
    first start. *)
Lemma second_start_loses_original_PATH :
  fst (Host.addRtools (Some Scenario.rtools) (pathOf Scenario.windowsPath) "") = true
  /\ pathOf (exec (run (host := Host.windows (Some Scenario.rtools)) Scenario.twoStarts)
                  Scenario.windowsPath)
     <> pathOf Scenario.windowsPath.
Proof. split; vm_compute; [reflexivity | discriminate]. Qed.

Lemma second_start_saves_anew_witness :
  pathOf (exec (run (host := Host.windows (Some Scenario.rtools))
                    (CallOnBuild "C:/p/x.cpp" false false :: deliver []))
               Scenario.windowsPath) <> ""
  /\ pathOf (exec (handleBuildComplete (host := Host.windows (Some Scenario.rtools))
                     true "ok")
               (exec (run (host := Host.windows (Some Scenario.rtools))
                          (CallOnBuild "C:/p/y.cpp" false false :: deliver []))
                  (exec (run (host := Host.windows (Some Scenario.rtools))
                             (CallOnBuild "C:/p/x.cpp" false false :: deliver []))
                        Scenario.windowsPath)))
     = pathOf (exec (run (host := Host.windows (Some Scenario.rtools))
                         (CallOnBuild "C:/p/x.cpp" false false :: deliver []))
                    Scenario.windowsPath).
Proof.
  split; [vm_compute; discriminate |].
  refine (proj2 (second_start_saves_anew (host := Host.windows (Some Scenario.rtools))
                   "C:/p/x.cpp" false false [] "C:/p/y.cpp" false false []
                   true "ok" Scenario.windowsPath _)).
  vm_compute. discriminate.
Defined.

End Concrete.

(** ** More about the session *)

Section SessionMore.
Context {host : Collaborators}.

Lemma reset_eq w :
  exec reset w
  = {| context := idleContext; environment := environment w; slots := 0;
       delayedWork := delayedWork w; effects := effects w |}.
Proof.
  destruct w as [[f so fc ob eb pp rw] env n dw eff].
  unfold reset. run_monad. reflexivity.
Qed.

(** X1. [reset] clears every field of the session and disconnects the console
    slot, and that is all: the environment keeps the patched PATH if there
    was one, delayed work that is pending stays pending, nothing is emitted,
    and a second [reset] changes nothing. *)
Theorem reset_clears_the_session_only (w : World) :
  context (exec reset w) = idleContext
  /\ slots (exec reset w) = 0
  /\ environment (exec reset w) = environment w
  /\ delayedWork (exec reset w) = delayedWork w
  /\ effects (exec reset w) = effects w
  /\ exec reset (exec reset w) = exec reset w.
Proof.
  rewrite !reset_eq. cbn [context slots environment delayedWork effects].
  repeat split; reflexivity.
Qed.

Lemma slots_step c w : slots w <= 1 -> slots (exec (step c) w) <= 1.
Proof.
  intros Hw. destruct c as [f fromCode showOutput | succeeded output | type output |].
  - rewrite step_onBuild, slots_onBuild. lia.
  - rewrite step_onBuildComplete. exact Hw.
  - rewrite step_consoleOutput. exact Hw.
  - rewrite step_timerFires.
    destruct (delayedWork w) as [|[period [succeeded output]] rest]; [exact Hw |].
    rewrite handleBuildComplete_eq. cbn [slots]. lia.
Qed.

Lemma slots_run cs w : slots w <= 1 -> slots (exec (run cs) w) <= 1.
Proof.
  revert w. induction cs as [|c cs IH]; intros w Hw; [exact Hw |].
  rewrite run_cons. apply IH, slots_step, Hw.
Qed.

(** X2. Whatever is called in whatever order from the start of the process,
    at most one slot of the session is connected to the console signal, so
    a chunk of console output is stored once or not at all, never twice. *)
Theorem at_most_one_console_slot
    (env : gmap string string) (cs : list Call)
    (type : ConsoleOutputType) (output : string) :
  let w := exec (run cs) (initialWorld env) in
  slots w <= 1
  /\ (exec (step (ConsoleOutput type output)) w = w
      \/ exec (step (ConsoleOutput type output)) w
         = withContext (appendTo type (storedChunk output) (context w)) w).
Proof.
  cbv zeta.
  assert (Hs : slots (exec (run cs) (initialWorld env)) <= 1)
    by (apply slots_run; cbn; lia).
  split; [exact Hs |].
  rewrite step_consoleOutput.
  destruct (slots (exec (run cs) (initialWorld env))) as [|[|n]]; [left | right | lia].
  - cbn [repeated]. now rewrite appendTo_empty, withContext_same.
  - cbn [repeated]. now rewrite append_empty_r.
Qed.

(** X3. Console output that arrives when no build is active is dropped: after
    the completion handler has run, and at the start of the process, a chunk
    on either channel leaves the world as it is. *)
Theorem console_output_dropped_when_idle
    (succeeded : bool) (output : string) (w : World)
    (env : gmap string string) (type : ConsoleOutputType) (chunk : string) :
  exec (step (ConsoleOutput type chunk)) (exec (handleBuildComplete succeeded output) w)
  = exec (handleBuildComplete succeeded output) w
  /\ exec (step (ConsoleOutput type chunk)) (initialWorld env) = initialWorld env.
Proof.
  split.
  - rewrite step_consoleOutput, handleBuildComplete_eq. cbv zeta.
    cbn [slots context repeated]. rewrite appendTo_empty. reflexivity.
  - rewrite step_consoleOutput. cbn [slots initialWorld context repeated].
    rewrite appendTo_empty. reflexivity.
Qed.

Lemma environment_step c w name :
  name <> "PATH" ->
  environment (exec (step c) w) !! name = environment w !! name.
Proof.
  intros Hname.
  destruct c as [f fromCode showOutput | succeeded output | type output |].
  - rewrite step_onBuild, onBuild_eq. cbv zeta. cbn [snd environment].
    destruct (fst (addRtoolsToPathIfNecessary (pathOf w) "")); [| reflexivity].
    apply lookup_insert_ne. congruence.
  - reflexivity.
  - now rewrite step_consoleOutput.
  - rewrite step_timerFires.
    destruct (delayedWork w) as [|[period [succeeded output]] rest]; [reflexivity |].
    rewrite handleBuildComplete_eq. cbv zeta. cbn [environment context].
    destruct (negb (str_empty (previousPath_ (context w)))); [| reflexivity].
    apply lookup_insert_ne. congruence.
Qed.

(** X4. The session sets no environment variable but PATH: over any run of
    calls every other variable keeps its value, or stays unset. *)
Theorem only_PATH_is_ever_set (cs : list Call) (w : World) (name : string) :
  name <> "PATH" ->
  environment (exec (run cs) w) !! name = environment w !! name.
Proof.
  intros Hname. revert w. induction cs as [|c cs IH]; intros w; [reflexivity |].
  rewrite run_cons, IH. now apply environment_step.
Qed.

Lemma startedOf_app (a b : list Effect) :
  startedOf (a ++ b) = startedOf a + startedOf b.
Proof. unfold startedOf. now rewrite List.filter_app, length_app. Qed.

Lemma completedOf_app (a b : list Effect) :
  completedOf (a ++ b) = completedOf a ++ completedOf b.
Proof. apply omap_app. Qed.

Lemma counts_step c w :
  startedOf (effects (exec (step c) w))
  = startedOf (effects w) + (if isOnBuild c then 1 else 0)
  /\ length (completedOf (effects (exec (step c) w)))
      + length (delayedWork (exec (step c) w))
     <= length (completedOf (effects w)) + length (delayedWork w)
        + (if isOnBuildComplete c then 1 else 0).
Proof.
  destruct c as [f fromCode showOutput | succeeded output | type output |];
    cbn [isOnBuild isOnBuildComplete].
  - rewrite step_onBuild, onBuild_eq. cbv zeta. cbn [snd effects delayedWork].
    rewrite !startedOf_app, !completedOf_app, !length_app.
    destruct (fst (addRtoolsToPathIfNecessary (pathOf w) "")); cbn; lia.
  - rewrite step_onBuildComplete. cbn [effects delayedWork].
    rewrite length_app. cbn. lia.
  - rewrite step_consoleOutput. cbn [withContext effects delayedWork]. lia.
  - rewrite step_timerFires.
    destruct (delayedWork w) as [|[period [succeeded output]] rest] eqn:E.
    + rewrite E. cbn. lia.
    + rewrite handleBuildComplete_eq. cbv zeta. cbn [effects delayedWork context slots].
      rewrite !startedOf_app, !completedOf_app, !length_app.
      destruct (negb (str_empty (previousPath_ (context w)))),
        (negb succeeded && negb (str_empty (rToolsWarning_ (context w)))),
        (fromCode_ (context w)); cbn; lia.
Qed.

Lemma counts_run cs w :
  startedOf (effects (exec (run cs) w))
  = startedOf (effects w) + countCalls isOnBuild cs
  /\ length (completedOf (effects (exec (run cs) w)))
      + length (delayedWork (exec (run cs) w))
     <= length (completedOf (effects w)) + length (delayedWork w)
        + countCalls isOnBuildComplete cs.
Proof.
  revert w. induction cs as [|c cs IH]; intros w.
  - rewrite run_nil. unfold countCalls. cbn. lia.
  - rewrite run_cons. destruct (IH (exec (step c) w)) as [IHs IHc].
    destruct (counts_step c w) as [Hs Hc]. unfold countCalls in *.
    cbn [List.filter]. destruct (isOnBuild c), (isOnBuildComplete c); cbn [length]; lia.
Qed.

(** X5. Over any run from the start of the process, the started events in
    the log are as many as the calls of [onBuild], and the completed events
    together with the completions still pending are never more than the
    calls of [onBuildComplete]: a completion is handled at most once. *)
Theorem events_match_calls (env : gmap string string) (cs : list Call) :
  let w := exec (run cs) (initialWorld env) in
  startedOf (effects w) = countCalls isOnBuild cs
  /\ length (completedOf (effects w)) + length (delayedWork w)
     <= countCalls isOnBuildComplete cs.
Proof.
  cbv zeta. destruct (counts_run cs (initialWorld env)) as [Hs Hc].
  cbn in Hs, Hc. split; lia.
Qed.

(** X6. A completion that is pending when a second build starts is not
    cancelled: when the timer fires it runs on the session of the second
    build. The completed event, if the second build is not from code, names
    the second file, and the second session is cleared and disconnected
    while its build is still under way. *)
Theorem pending_completion_hits_newer_session
    (env : gmap string string)
    (first : FilePath) (fromCode1 showOutput1 : bool)
    (succeeded : bool) (output : string)
    (second : FilePath) (showOutput2 : bool)
    (chunks : list (ConsoleOutputType * string)) :
  let w := exec (run ([CallOnBuild first fromCode1 showOutput1;
                       CallOnBuildComplete succeeded output]
                      ++ (CallOnBuild second false showOutput2 :: deliver chunks)
                      ++ [TimerFires]))
                (initialWorld env) in
  map targetFile (completedOf (effects w)) = [createAliasedPath second]
  /\ context w = idleContext
  /\ slots w = 0
  /\ delayedWork w = [].
Proof.
  cbv zeta. rewrite !run_app.
  rewrite (run_start second false showOutput2 chunks).
  rewrite (run_cons TimerFires), run_nil, step_timerFires.
  rewrite (run_cons (CallOnBuild first fromCode1 showOutput1)), run_cons, run_nil.
  rewrite step_onBuildComplete, step_onBuild.
  rewrite !onBuild_eq. cbv zeta.
  cbn [snd context environment slots delayedWork effects withContext initialWorld app].
  rewrite handleBuildComplete_eq. cbv zeta.
  cbn [context environment slots delayedWork effects].
  repeat split.
  rewrite !completedOf_app.
  assert (Hfc : forall t text c, fromCode_ (appendTo t text c) = fromCode_ c)
    by (intros [] ? ?; reflexivity).
  assert (Hsf : forall t text c, sourceFile_ (appendTo t text c) = sourceFile_ c)
    by (intros [] ? ?; reflexivity).
  rewrite !Hfc, !Hsf. cbn [fromCode_ sourceFile_].
  repeat match goal with
         | |- context [if ?b then _ else _] => destruct b
         end; reflexivity.
Qed.

(** X7. The completion handler does not check that a build is active. On an
    idle session, as after a completion without a start or a second
    completion for one build, it still emits a completed event: for the
    aliased empty path, with the reported output of a build said to have
    succeeded and no output otherwise, and an empty error output. The
    environment is left alone and nothing is written to the console. *)
Theorem completion_on_idle_session
    (succeeded : bool) (output : string) (w : World) :
  context w = idleContext ->
  emittedBy (handleBuildComplete succeeded output) w
  = [EnqueClientEvent (kSourceCppCompleted
       {| targetFile := createAliasedPath emptyFilePath;
          errors := gccErrorParser (parent emptyFilePath)
                      ((if succeeded then output else "") +:+ newline +:+ "");
          outputs := [mkBuildOutput kBuildOutputNormal (if succeeded then output else "");
                      mkBuildOutput kBuildOutputError ""] |})]
  /\ environment (exec (handleBuildComplete succeeded output) w) = environment w.
Proof.
  intros Hidle. rewrite emittedBy_handleBuildComplete, handleBuildComplete_eq.
  cbv zeta. rewrite Hidle. cbn [environment]. destruct succeeded; split; reflexivity.
Qed.

(** What [rs_sourceCppOnBuildComplete] hands on for an R value. *)
Lemma rs_sourceCppOnBuildComplete_eq succeeded sOutput w :
  rs_sourceCppOnBuildComplete succeeded sOutput w
  = ((R_NilValue,
      match sOutput with
      | R_NilValue | STRSXP _ => []
      | _ => ["expected a character vector"]
      end),
     {| context := context w; environment := environment w; slots := slots w;
        delayedWork :=
          delayedWork w
          ++ [(200%Z, (succeeded,
                       match sOutput with
                       | STRSXP lines => join lines newline
                       | _ => ""
                       end))];
        effects := effects w |}).
Proof. destruct sOutput; reflexivity. Qed.

(** X8. [rs_sourceCppOnBuildComplete] never finalizes at once: it changes
    nothing in the session, the environment or the log and only adds one
    delayed completion. The output it passes on is the lines of the
    character vector joined by newlines, and the empty string for
    [R_NilValue] and for a value that is no character vector, for which an
    error is logged. *)
Theorem rs_sourceCppOnBuildComplete_defers
    (succeeded : bool) (sOutput : SEXP) (w : World) :
  let after := snd (rs_sourceCppOnBuildComplete succeeded sOutput w) in
  context after = context w
  /\ environment after = environment w
  /\ slots after = slots w
  /\ effects after = effects w
  /\ delayedWork after
     = delayedWork w
       ++ [(200%Z, (succeeded,
                    match sOutput with
                    | STRSXP lines => join lines newline
                    | _ => ""
                    end))]
  /\ snd (fst (rs_sourceCppOnBuildComplete succeeded sOutput w))
     = match sOutput with
       | R_NilValue | STRSXP _ => []
       | _ => ["expected a character vector"]
       end.
Proof. cbv zeta. rewrite rs_sourceCppOnBuildComplete_eq. repeat split. Qed.

Lemma exec_rs_sourceCppOnBuild f fromCode showOutput w :
  exec (rs_sourceCppOnBuild f fromCode showOutput) w
  = snd (onBuild f fromCode showOutput w).
Proof.
  unfold exec, rs_sourceCppOnBuild, bind, ret.
  now destruct (onBuild f fromCode showOutput w).
Qed.

(** X9. For a quiet build of a file that succeeds, started and completed
    through the two R entry points with the timer firing after them, the one
    completed event carries as its normal output the lines that R reported,
    joined by newlines, and what came in on the error channel as its error
    output; what came in on the normal channel is not reported. *)
Theorem quiet_success_reports_joined_lines
    (env : gmap string string) (f : FilePath) (lines : list string)
    (chunks : list (ConsoleOutputType * string)) :
  let started := exec (rs_sourceCppOnBuild f false false) (initialWorld env) in
  let built := exec (run (deliver chunks)) started in
  let signalled := exec (rs_sourceCppOnBuildComplete true (STRSXP lines)) built in
  map outputs (completedOf (effects (exec (step TimerFires) signalled)))
  = [[mkBuildOutput kBuildOutputNormal (join lines newline);
      mkBuildOutput kBuildOutputError (captured ConsoleOutputError chunks)]].
Proof.
  cbv zeta. rewrite exec_rs_sourceCppOnBuild, onBuild_eq. cbv zeta. cbn [snd].
  rewrite run_deliver by reflexivity.
  unfold exec at 2. rewrite rs_sourceCppOnBuildComplete_eq. cbn [snd].
  rewrite step_timerFires.
  cbn [withContext context environment slots delayedWork effects initialWorld app].
  rewrite handleBuildComplete_eq. cbv zeta.
  cbn [context environment slots delayedWork effects].
  rewrite !completedOf_app.
  assert (Hfc : forall t text c, fromCode_ (appendTo t text c) = fromCode_ c)
    by (intros [] ? ?; reflexivity).
  assert (Hso : forall t text c, showOutput_ (appendTo t text c) = showOutput_ c)
    by (intros [] ? ?; reflexivity).
  rewrite !Hfc, !Hso. cbn [fromCode_ showOutput_ negb orb andb appendTo
    set_consoleErrorBuffer set_consoleOutputBuffer consoleErrorBuffer_].
  repeat match goal with
         | |- context [if ?b then _ else _] => destruct b
         end; reflexivity.
Qed.

(** X10. A state is empty when it has neither errors nor outputs, whatever
    its target file; [clear] leaves an empty state with no target file, one
    [addOutput] makes a state non-empty, and the state of every completed
    event that the completion handler emits is non-empty. *)
Theorem completed_state_is_never_empty
    (succeeded : bool) (output : string) (w : World)
    (s : SourceCppState) (type : Z) (text : string) :
  State.empty (State.clear s) = true
  /\ targetFile (State.clear s) = ""
  /\ State.empty {| targetFile := targetFile s; errors := []; outputs := [] |} = true
  /\ State.empty (addOutput type text s) = false
  /\ map State.empty
       (completedOf (emittedBy (handleBuildComplete succeeded output) w))
     = (if fromCode_ (context w) then [] else [false]).
Proof.
  repeat split.
  - unfold State.empty, addOutput. cbn [errors outputs].
    destruct (errors s); [| reflexivity]. now destruct (outputs s).
  - rewrite emittedBy_handleBuildComplete. cbv zeta. rewrite !completedOf_app.
    destruct (negb (str_empty (previousPath_ (context w)))),
      (negb succeeded && negb (str_empty (rToolsWarning_ (context w)))),
      (fromCode_ (context w)); cbn [completedOf omap app map];
      try reflexivity;
      unfold State.empty; cbn [errors outputs];
      now destruct (gccErrorParser _ _).
Qed.

End SessionMore.

Lemma completion_on_idle_session_witness :
  context (initialWorld ∅) = idleContext
  /\ environment (exec (handleBuildComplete (host := Host.posix) true "done")
                       (initialWorld ∅))
     = environment (initialWorld ∅).
Proof.
  split; [reflexivity |].
  exact (proj2 (completion_on_idle_session (host := Host.posix) true "done"
                  (initialWorld ∅) eq_refl)).
Defined.

Lemma only_PATH_is_ever_set_witness :
  "HOME" <> "PATH"
  /\ environment (exec (run (host := Host.windows (Some Scenario.rtools))
                            Scenario.oneBuild) Scenario.windowsPath) !! "HOME"
     = environment Scenario.windowsPath !! "HOME".
Proof.
  split; [discriminate |].
  apply (only_PATH_is_ever_set (host := Host.windows (Some Scenario.rtools))).
  discriminate.
Defined.

(** ** Strings of the presentation handlers *)

Section StrFacts.

Lemma starts_with_app (test rest : string) :
  Str.starts_with (test +:+ rest) test = true.
Proof.
  induction test as [|a test IH]; [reflexivity |].
  rewrite append_cons. cbn [Str.starts_with]. now rewrite Ascii.eqb_refl, IH.
Qed.

(** [starts_with] is the prefix test. *)
Lemma starts_with_spec (input test : string) :
  Str.starts_with input test = true <-> input = test +:+ Str.drop (Str.size test) input.
Proof.
  split.
  - revert input. induction test as [|a test IH]; intros input Hs; [reflexivity |].
    destruct input as [|b input]; [discriminate |].
    cbn [Str.starts_with] in Hs. apply andb_true_iff in Hs as [Hab Hs].
    apply Ascii.eqb_eq in Hab as ->.
    rewrite append_cons. cbn [Str.size Str.drop]. f_equal. now apply IH.
  - intros ->. apply starts_with_app.
Qed.

Lemma take_drop (n : nat) (s : string) : Str.take n s +:+ Str.drop n s = s.
Proof.
  revert s. induction n as [|n IH]; intros s; [reflexivity |].
  destruct s as [|c s]; [reflexivity |].
  cbn [Str.take Str.drop]. rewrite append_cons. f_equal. apply IH.
Qed.

Lemma drop_drop (k n : nat) (s : string) :
  Str.drop k (Str.drop n s) = Str.drop (n + k) s.
Proof.
  revert s. induction n as [|n IH]; intros s; [reflexivity |].
  destruct s as [|c s]; [now destruct k | apply IH].
Qed.

Lemma forallb_map_S (f : nat -> bool) (l : list nat) :
  forallb f (map S l) = forallb (fun m => f (S m)) l.
Proof. induction l as [|x l IH]; [reflexivity |]. cbn. now rewrite IH. Qed.

(** [find] gives the first place where the string starts. *)
Lemma find_Some (s sub : string) (n : nat) :
  Str.find s sub = Some n ->
  Str.starts_with (Str.drop n s) sub = true
  /\ forallb (fun m => negb (Str.starts_with (Str.drop m s) sub)) (seq 0 n) = true.
Proof.
  revert n. induction s as [|c s IH]; intros n Hfind.
  - cbn [Str.find] in Hfind.
    destruct (Str.starts_with "" sub) eqn:E; [| discriminate].
    injection Hfind as <-. now split.
  - cbn [Str.find] in Hfind.
    destruct (Str.starts_with (String c s) sub) eqn:E.
    + injection Hfind as <-. now split.
    + destruct (Str.find s sub) as [k|] eqn:Ek; [| discriminate].
      injection Hfind as <-. destruct (IH k eq_refl) as [Hk Hbefore].
      split; [exact Hk |].
      cbn [seq forallb Str.drop]. rewrite E. cbn [negb andb].
      rewrite <- seq_shift, forallb_map_S. exact Hbefore.
Qed.

Lemma find_None (s sub : string) (m : nat) :
  Str.find s sub = None -> Str.starts_with (Str.drop m s) sub = false.
Proof.
  revert m. induction s as [|c s IH]; intros m Hfind.
  - cbn [Str.find] in Hfind.
    destruct (Str.starts_with "" sub) eqn:E; [discriminate |].
    now destruct m.
  - cbn [Str.find] in Hfind.
    destruct (Str.starts_with (String c s) sub) eqn:E; [discriminate |].
    destruct (Str.find s sub) eqn:Ek; [discriminate |].
    destruct m as [|m]; [exact E | now apply IH].
Qed.

Lemma replace_first_find_None (input search format : string) :
  Str.find input search = None ->
  Str.replace_first input search format = input.
Proof.
  induction input as [|c input IH]; intros Hfind; [reflexivity |].
  cbn [Str.find] in Hfind. cbn [Str.replace_first].
  destruct (Str.starts_with (String c input) search); [discriminate |].
  destruct (Str.find input search); [discriminate |].
  f_equal. now apply IH.
Qed.

Lemma replace_first_find_Some (input search format : string) (n : nat) :
  search <> "" ->
  Str.find input search = Some n ->
  Str.replace_first input search format
  = Str.take n input +:+ format +:+ Str.drop (n + Str.size search) input.
Proof.
  intros Hsearch. revert n. induction input as [|c input IH]; intros n Hfind.
  - destruct search; [congruence | discriminate].
  - cbn [Str.find] in Hfind. cbn [Str.replace_first].
    destruct (Str.starts_with (String c input) search).
    + injection Hfind as <-. reflexivity.
    + destruct (Str.find input search) as [k|]; [| discriminate].
      injection Hfind as <-. rewrite (IH k eq_refl).
      cbn [Str.take Str.drop Nat.add]. now rewrite append_cons.
Qed.

End StrFacts.

(** ** Resources and markup of the presentation *)

Section Resources.

Import Presentation.

Lemma get_twice (read1 read2 : string -> string) (path : string)
    (cache : gmap string string) :
  get read2 path (snd (get read1 path cache)) = get read1 path cache.
Proof.
  unfold get. destruct (cache !! path) as [v|] eqn:E; cbn [fst snd].
  - rewrite E. cbn. now rewrite E.
  - rewrite lookup_insert_eq. cbn. now rewrite lookup_insert_eq.
Qed.

(** X11. The cache of resource files answers from its entry whenever it has
    one: after a first [get] of a path, a second one gives the same text and
    leaves the cache as it is, whatever the resource has become on disk in
    between. *)
Theorem resource_cache_is_stable
    (read1 read2 : string -> string) (path : string) (cache : gmap string string) :
  get read2 path (snd (get read1 path cache)) = get read1 path cache
  /\ snd (get read1 path cache) !! path = Some (fst (get read1 path cache)).
Proof.
  split; [apply get_twice |].
  unfold get. destruct (cache !! path) as [v|] eqn:E; cbn [fst snd].
  - now rewrite E.
  - now rewrite lookup_insert_eq.
Qed.

(** X12. A [get] never changes or drops what the cache already holds: an
    entry that is there keeps its text, for the path asked and for every
    other path. *)
Theorem resource_cache_keeps_entries
    (read : string -> string) (path other : string) (text : string)
    (cache : gmap string string) :
  cache !! other = Some text ->
  snd (get read path cache) !! other = Some text.
Proof.
  intros Hother. unfold get. cbn [snd].
  destruct (cache !! path) as [v|] eqn:E; [exact Hother |].
  rewrite lookup_insert_ne; [exact Hother | congruence].
Qed.

(** X13. A linked asset reads no resource and leaves the cache alone. An
    embedded asset reads presentation/ and its path through the cache, so
    embedding it a second time gives the same markup and the same cache even
    when the resource has changed. A path counts as a style sheet when it
    ends in the three letters css, with or without a dot before them. *)
Theorem reveal_assets_and_the_cache
    (read1 read2 : string -> string) (path attribs : string)
    (cache : gmap string string) :
  revealLink read1 path attribs cache
  = (fst (revealLink read2 path attribs ∅), cache)
  /\ revealEmbed read2 path attribs (snd (revealEmbed read1 path attribs cache))
     = revealEmbed read1 path attribs cache
  /\ snd (revealEmbed read1 path attribs cache)
     = snd (get read1 ("presentation/" +:+ path) cache)
  /\ Str.starts_with (fst (revealLink read1 path attribs cache))
       (if ends_with path "css" then "<link rel=" else "<script src=") = true.
Proof.
  unfold revealLink, revealEmbed, revealResource.
  pose proof (get_twice read1 read2 ("presentation/" +:+ path) cache) as Hstable.
  destruct (ends_with path "css"); cbn [fst snd];
    rewrite Hstable; repeat split; reflexivity.
Qed.

(** X14. [localMathjax] is the remote MathJax snippet with the first
    occurrence of the address of the content network replaced by the local
    directory mathjax: the text before and after that place is kept, later
    occurrences stay, and a snippet without the address is returned as it
    is. The cache is left as [remoteMathjax] leaves it. *)
Theorem localMathjax_replaces_first_address
    (read : string -> string) (cache : gmap string string) :
  let remote := fst (remoteMathjax read cache) in
  let local := fst (localMathjax read cache) in
  snd (localMathjax read cache) = snd (remoteMathjax read cache)
  /\ match Str.find remote mathjaxUrl with
     | None => local = remote
     | Some n =>
         remote = Str.take n remote +:+ mathjaxUrl
                  +:+ Str.drop (n + Str.size mathjaxUrl) remote
         /\ local = Str.take n remote +:+ "mathjax"
                    +:+ Str.drop (n + Str.size mathjaxUrl) remote
         /\ forallb (fun m => negb (Str.starts_with (Str.drop m remote) mathjaxUrl))
                    (seq 0 n) = true
     end.
Proof.
  cbv zeta. unfold localMathjax. cbn [fst snd]. split; [reflexivity |].
  set (remote := fst (remoteMathjax read cache)).
  unfold Str.replace_first_copy. cbn [str_empty mathjaxUrl].
  destruct (Str.find remote mathjaxUrl) as [n|] eqn:Efind.
  - destruct (find_Some _ _ _ Efind) as [Hat Hbefore].
    split; [| split; [| exact Hbefore]].
    + apply starts_with_spec in Hat.
      rewrite <- (take_drop n remote) at 1. f_equal.
      rewrite Hat at 1. f_equal. apply drop_drop.
    + apply replace_first_find_Some; [discriminate | exact Efind].
  - now apply replace_first_find_None.
Qed.

End Resources.

(** ** Links of a presentation *)

Section Links.

Import Presentation.

Lemma starts_with_append_r (s t : string) : Str.starts_with (s +:+ t) s = true.
Proof. apply starts_with_app. Qed.

(** X15. [fixupLink] never loses the anchor it was given: the result is the
    match itself, or the match followed by the target attribute, or the
    match followed by a blank and a click handler that may be empty. *)
Theorem fixupLink_keeps_the_anchor
    (urlDecode : string -> string)
    (jsonWrite : list (string * string) -> string) (match0 match1 : string) :
  let result := fixupLink urlDecode jsonWrite match0 match1 in
  Str.starts_with result match0 = true
  /\ (result = match0
      \/ result = match0 +:+ " target=" +:+ Str.dq +:+ "_blank" +:+ Str.dq
      \/ exists onClick, result = match0 +:+ " " +:+ onClick).
Proof.
  cbv zeta. unfold fixupLink.
  destruct (Str.starts_with (urlDecode match1) "#").
  { split; [| now left]. rewrite <- (append_empty_r match0) at 1.
    apply starts_with_app. }
  destruct (bool_decide (is_Some (Str.find (urlDecode match1) "://"))).
  { split; [apply starts_with_app | now right; left]. }
  destruct (Str.starts_with (urlDecode match1) "help-topic:"
            || Str.starts_with (urlDecode match1) "help-doc:").
  - destruct (Str.find_first_of (urlDecode match1) (ascii_of_nat 58)).
    + split; [apply starts_with_app | right; right; eauto].
    + split; [apply starts_with_app | right; right]. exists "". reflexivity.
  - split; [| now left]. rewrite <- (append_empty_r match0) at 1.
    apply starts_with_app.
Qed.

(** X16. A help address, [help-topic:] or [help-doc:] followed by its
    argument, becomes a click handler that dispatches the command named by
    the prefix with the trimmed argument, but only when the argument has at
    least two characters: for a shorter one the anchor gets a blank and no
    handler at all. *)
Theorem fixupLink_help_command
    (urlDecode : string -> string)
    (jsonWrite : list (string * string) -> string)
    (match0 match1 command argument : string) :
  command = "help-topic" \/ command = "help-doc" ->
  urlDecode match1 = command +:+ ":" +:+ argument ->
  Str.find (command +:+ ":" +:+ argument) "://" = None ->
  fixupLink urlDecode jsonWrite match0 match1
  = match0 +:+ " "
    +:+ (if (2 <=? Str.size argument)%nat then
           "onclick='" +:+ "window.parent.dispatchPresentationCommand("
           +:+ jsonWrite [("name", command); ("params", Str.trim_copy argument)]
           +:+ "); return false;'"
         else "").
Proof.
  intros Hcommand Hhref Hfind. unfold fixupLink. rewrite Hhref, Hfind.
  destruct Hcommand as [-> | ->].
  - change ("help-topic" +:+ ":" +:+ argument)
      with ("help-topic:" +:+ argument) in *.
    rewrite (starts_with_app "help-topic:" argument).
    cbn [orb].
    change (Str.starts_with ("help-topic:" +:+ argument) "#") with false.
    change (bool_decide (is_Some (@None nat))) with false.
    change (Str.find_first_of ("help-topic:" +:+ argument) (ascii_of_nat 58))
      with (Some 10).
    change (Str.size ("help-topic:" +:+ argument)) with (11 + Str.size argument).
    change (Str.take 10 ("help-topic:" +:+ argument)) with "help-topic".
    change (Str.drop (10 + 1) ("help-topic:" +:+ argument)) with argument.
    change (Str.trim_copy "help-topic") with "help-topic".
    destruct (Str.size argument) as [|[|n]]; reflexivity.
  - change ("help-doc" +:+ ":" +:+ argument)
      with ("help-doc:" +:+ argument) in *.
    rewrite (starts_with_app "help-doc:" argument), orb_true_r.
    change (Str.starts_with ("help-doc:" +:+ argument) "#") with false.
    change (bool_decide (is_Some (@None nat))) with false.
    change (Str.find_first_of ("help-doc:" +:+ argument) (ascii_of_nat 58))
      with (Some 8).
    change (Str.size ("help-doc:" +:+ argument)) with (9 + Str.size argument).
    change (Str.take 8 ("help-doc:" +:+ argument)) with "help-doc".
    change (Str.drop (8 + 1) ("help-doc:" +:+ argument)) with argument.
    change (Str.trim_copy "help-doc") with "help-doc".
    destruct (Str.size argument) as [|[|n]]; reflexivity.
Qed.

End Links.

Lemma resource_cache_keeps_entries_witness :
  ({["a" := "x"]} : gmap string string) !! "a" = Some "x"
  /\ snd (Presentation.get (fun _ => "y") "b" {["a" := "x"]}) !! "a" = Some "x".
Proof.
  split; [reflexivity |].
  apply (resource_cache_keeps_entries (fun _ => "y") "b" "a" "x"). reflexivity.
Defined.

Lemma fixupLink_help_command_witness :
  ("help-topic" = "help-topic" \/ "help-topic" = "help-doc")
  /\ Str.find ("help-topic" +:+ ":" +:+ "plot") "://" = None
  /\ Presentation.fixupLink (fun s => s) (fun _ => "{}") "<a href=" "help-topic:plot"
     = "<a href=" +:+ " "
       +:+ ("onclick='" +:+ "window.parent.dispatchPresentationCommand("
            +:+ "{}" +:+ "); return false;'").
Proof.
  split; [now left |]. split; [reflexivity |].
  exact (fixupLink_help_command (fun s => s) (fun _ => "{}") "<a href="
           "help-topic:plot" "help-topic" "plot" (or_introl eq_refl) eq_refl eq_refl).
Defined.

(** ** Knitting and the range cache *)

Section Knit.

Import Presentation.
Context {P : Platform}.

(** X17. [performKnit] does nothing when the .md next to the .Rmd exists and
    was written strictly later: it succeeds, keeps the error message, leaves
    the disk alone, and neither asks for R or knitr nor removes or runs
    anything. *)
Theorem performKnit_skips_newer_md
    (rmdPath : FilePath) (pErrMsg : string) (disk : Disk) :
  exists_ disk (childPath (parent rmdPath) (stem rmdPath +:+ ".md")) = true ->
  (lastWriteTime disk rmdPath
   < lastWriteTime disk (childPath (parent rmdPath) (stem rmdPath +:+ ".md")))%Z ->
  performKnit rmdPath pErrMsg disk = mkOutcome true pErrMsg disk [].
Proof.
  intros Hexists Hnewer. unfold performKnit. rewrite Hexists.
  apply Z.ltb_lt in Hnewer. now rewrite Hnewer.
Qed.

(** X18. An .md that is not strictly newer than the .Rmd, also one of exactly
    the same time, does not count as up to date: with R and knitr at hand
    [performKnit] removes the .md first and then runs R, in the directory of
    the .Rmd, with the four options and the knit command for its stem, file
    name and the default encoding. *)
Theorem performKnit_knits_md_of_same_age
    (rmdPath : FilePath) (pErrMsg : string) (disk : Disk) (rProgramPath : FilePath) :
  (lastWriteTime disk (childPath (parent rmdPath) (stem rmdPath +:+ ".md"))
   <= lastWriteTime disk rmdPath)%Z ->
  rScriptPath disk = inr rProgramPath ->
  callHasKnitrVersion1 disk = inr true ->
  let mdPath := childPath (parent rmdPath) (stem rmdPath +:+ ".md") in
  let removed := removeIfExists mdPath disk in
  let args := ["--silent"; "--no-save"; "--no-restore"; "-e";
               knitCommand (stem rmdPath) (filename rmdPath) defaultEncoding] in
  did (performKnit rmdPath pErrMsg disk)
  = RemoveIfExists mdPath
    :: match fst removed with Some error => [LOG_ERROR error] | None => [] end
    ++ [RunProgram (utf8ToSystem rProgramPath) args "" (parent rmdPath)]
  /\ diskAfter (performKnit rmdPath pErrMsg disk)
     = snd (runProgram (utf8ToSystem rProgramPath) args "" (parent rmdPath)
              (snd removed)).
Proof.
  intros Hage Hr Hknitr. cbv zeta. unfold performKnit, hasKnitrVersion1.
  apply Z.ltb_ge in Hage. rewrite Hage, andb_false_r, Hr, Hknitr.
  cbn [fst snd negb app].
  destruct (fst (runProgram _ _ _ _ _)) as [error | result]; [now split |].
  destruct (negb (exitStatus result =? 0)%Z); now split.
Qed.

(** X19. When the .md is not up to date and R cannot be found, or knitr is
    missing, too old or cannot be asked, [performKnit] fails before it
    touches anything: the disk is as it was, nothing is removed or run, and
    the message is the error of the R path, which comes first, or the
    sentence about the knitr version. *)
Theorem performKnit_checks_tools_first
    (rmdPath : FilePath) (pErrMsg : string) (disk : Disk) :
  exists_ disk (childPath (parent rmdPath) (stem rmdPath +:+ ".md"))
  && (lastWriteTime disk rmdPath
      <? lastWriteTime disk (childPath (parent rmdPath) (stem rmdPath +:+ ".md")))%Z
  = false ->
  match rScriptPath disk with
  | inl _ => True
  | inr _ => callHasKnitrVersion1 disk <> inr true
  end ->
  performKnit rmdPath pErrMsg disk
  = mkOutcome false
      match rScriptPath disk with
      | inl error => error
      | inr _ => "knitr version 1.0 or greater is required for presentations"
      end
      disk
      match rScriptPath disk, callHasKnitrVersion1 disk with
      | inr _, inl error => [LOG_ERROR error]
      | _, _ => []
      end.
Proof.
  intros Hskip Htools. unfold performKnit, hasKnitrVersion1. rewrite Hskip.
  destruct (rScriptPath disk) as [error | r]; [reflexivity |].
  destruct (callHasKnitrVersion1 disk) as [error | [|]];
    [reflexivity | congruence | reflexivity].
Qed.

(** X20. A [performKnit] that succeeds leaves the error message of its caller
    as it was, whether it skipped the knit or ran it. *)
Theorem performKnit_success_keeps_message
    (rmdPath : FilePath) (pErrMsg : string) (disk : Disk) :
  succeeded (performKnit rmdPath pErrMsg disk) = false
  \/ errMsg (performKnit rmdPath pErrMsg disk) = pErrMsg.
Proof.
  unfold performKnit.
  destruct (exists_ disk _ && _); [now right |].
  destruct (rScriptPath disk); [now left |].
  destruct (negb (fst (hasKnitrVersion1 disk))); [now left |].
  cbv zeta. destruct (fst (runProgram _ _ _ _ _)) as [error | result]; [now left |].
  destruct (negb (exitStatus result =? 0)%Z); [now left | now right].
Qed.

(** X21. A range request for the file that the cache holds, with the time of
    its last write unchanged, is served from the cache without reading the
    disk: after one request that read the file, a second one gets the text
    read then, whatever the file contains now. *)
Theorem range_cache_serves_unchanged_file
    (targetFile : FilePath) (request1 request2 : Request)
    (disk1 disk2 : Disk) (s_cache0 : RangeFileCache) :
  negb (String.eqb targetFile (absolutePath (file s_cache0)))
  || negb (lastWriteTime disk1 targetFile =? fileLastWriteTime (file s_cache0))%Z
  = true ->
  fst (readStringFromFile disk1 targetFile "") = None ->
  fileInfo disk1 targetFile = mkFileInfo targetFile (lastWriteTime disk1 targetFile) ->
  lastWriteTime disk2 targetFile = lastWriteTime disk1 targetFile ->
  handleRangeRequest targetFile request2 disk2
    (snd (handleRangeRequest targetFile request1 disk1 s_cache0))
  = ([SetRangeableFile (snd (readStringFromFile disk1 targetFile ""))
                       (mimeContentType targetFile) request2],
     snd (handleRangeRequest targetFile request1 disk1 s_cache0)).
Proof.
  intros Hmiss Hread Hinfo Htime. unfold handleRangeRequest at 2 3.
  rewrite Hmiss. cbn [contents clearedRangeFileCache]. rewrite Hread.
  cbn [snd]. unfold handleRangeRequest.
  cbn [file contentType contents]. rewrite Hinfo.
  cbn [absolutePath fileLastWriteTime].
  now rewrite String.eqb_refl, Htime, Z.eqb_refl.
Qed.

(** X22. When a range request has to read the file and the read fails, the
    response is that error and the cache is cleared: it names no file and no
    content type any more, so the file that was cached before is read again
    when it is asked for next. *)
Theorem range_read_error_clears_cache
    (targetFile : FilePath) (request : Request) (disk : Disk)
    (s_cache0 : RangeFileCache) (error : string) :
  negb (String.eqb targetFile (absolutePath (file s_cache0)))
  || negb (lastWriteTime disk targetFile =? fileLastWriteTime (file s_cache0))%Z
  = true ->
  fst (readStringFromFile disk targetFile "") = Some error ->
  handleRangeRequest targetFile request disk s_cache0
  = ([SetErrorFrom error],
     mkRangeFileCache (mkFileInfo "" 0) ""
                      (snd (readStringFromFile disk targetFile ""))).
Proof.
  intros Hmiss Hread. unfold handleRangeRequest. rewrite Hmiss.
  cbn [contents clearedRangeFileCache file contentType]. now rewrite Hread.
Qed.

End Knit.

(** ** Requests of the presentation pane and of its help *)

Section Requests.

Import Presentation.
Context {P : Platform}.

Lemma keeps_refl st : keepsRequestState st st.
Proof. now split. Qed.

Lemma keeps_trans st1 st2 st3 :
  keepsRequestState st1 st2 -> keepsRequestState st2 st3 -> keepsRequestState st1 st3.
Proof. intros [H1 H2] [H3 H4]. split; congruence. Qed.

Lemma keeps_withCache c st : keepsRequestState st (withCache c st).
Proof. now split. Qed.

Lemma keeps_withDisk d st : keepsRequestState st (withDisk d st).
Proof. now split. Qed.

Lemma keeps_resource path st : keepsRequestState st (snd (resource path st)).
Proof. apply keeps_withCache. Qed.

Lemma keeps_link path st : keepsRequestState st (snd (link path st)).
Proof. apply keeps_withCache. Qed.

Lemma keeps_readPresentation pVars pErrMsg st :
  keepsRequestState st (snd (readPresentation pVars pErrMsg st)).
Proof.
  unfold readPresentation.
  set (knit := if exists_ (disk st) _ then _ else _).
  destruct (negb (succeeded knit)); [apply keeps_withDisk |].
  destruct (negb (exists_ _ _)); [apply keeps_withDisk |].
  destruct (readSlides _ _); [apply keeps_withDisk |].
  destruct (renderSlides _); [apply keeps_withDisk |].
  cbn [snd].
  eapply keeps_trans; [apply keeps_withDisk |].
  eapply keeps_trans; apply keeps_resource.
Qed.

Lemma keeps_renderPresentation vars filters pErrMsg st :
  keepsRequestState st (snd (renderPresentation vars filters pErrMsg st)).
Proof.
  unfold renderPresentation.
  destruct (snd (renderTemplate _ _ _)); apply keeps_resource.
Qed.

Lemma keeps_handlePresentationRootRequest path st :
  keepsRequestState st (snd (handlePresentationRootRequest path st)).
Proof.
  unfold handlePresentationRootRequest.
  destruct (negb (readOk (fst (readPresentation ∅ "" st))));
    [apply keeps_readPresentation |].
  cbv zeta.
  match goal with
  | |- keepsRequestState _ (snd (if ?b then _ else _)) => destruct b
  end; cbn [snd];
  (eapply keeps_trans; [apply keeps_readPresentation |]);
  (eapply keeps_trans; [| apply keeps_renderPresentation]);
  (eapply keeps_trans; [| apply keeps_resource]);
  (destruct (isMathJaxRequired _); cbn [snd];
   [eapply keeps_trans; [| apply keeps_withCache] |]);
  repeat (eapply keeps_trans; [| apply keeps_link]); apply keeps_refl.
Qed.

(** X23. A request of the pane never changes the directory saved for the
    help, and it changes the range cache only when it carries a Range
    header: without one the cache is as before, whichever route the request
    takes, the rendering of the presentation included. *)
Theorem pane_request_keeps_help_directory_and_range_cache
    (request : Request) (st : PState) :
  s_presentationHelpDir (snd (handlePresentationPaneRequest request st))
  = s_presentationHelpDir st
  /\ (str_empty (headerValue request "Range") = false
      \/ s_cache (snd (handlePresentationPaneRequest request st)) = s_cache st).
Proof.
  unfold handlePresentationPaneRequest.
  destruct (negb presentationIsActive); [split; [reflexivity | now right] |].
  destruct (str_empty _ || _).
  { destruct (keeps_handlePresentationRootRequest
                (pathAfterPrefix request "/presentation/") st) as [Hc Hd].
    split; [exact Hd | now right]. }
  destruct (Str.starts_with _ "revealjs/"); [split; [reflexivity | now right] |].
  destruct (Str.starts_with _ "mathjax/"); [split; [reflexivity | now right] |].
  destruct (str_empty (headerValue request "Range"));
    cbn [negb]; split; try reflexivity; [now right | now left].
Qed.

Lemma keeps_handlePresentationHelpMarkdownRequest filePath jsCallbacks st :
  keepsRequestState st
    (snd (handlePresentationHelpMarkdownRequest filePath jsCallbacks st)).
Proof.
  unfold handlePresentationHelpMarkdownRequest.
  set (knit := if String.eqb _ _ then _ else _).
  destruct (negb (succeeded (snd knit))); [apply keeps_withDisk |].
  destruct (markdownToHTML _ _); [apply keeps_withDisk |].
  cbv zeta. cbn [snd].
  eapply keeps_trans; [apply keeps_withDisk |].
  eapply keeps_trans; [| apply keeps_resource].
  destruct (isMathJaxRequired _); cbn [snd];
    [eapply keeps_trans; [| apply keeps_withCache] |];
    (eapply keeps_trans; apply keeps_resource).
Qed.

(** X24. A help request never touches the range cache, and it changes the
    saved help directory in one case only: when it names a file that
    exists, the directory of that file is saved, before the file is looked
    at any further. A request for a missing file and a request without a
    file leave the saved directory as it was. *)
Theorem help_request_saves_directory_of_existing_file
    (request : Request) (jsCallbacks : string) (st : PState) :
  let named := queryParamValue request "file" in
  let after := snd (handlePresentationHelpRequest request jsCallbacks st) in
  s_cache after = s_cache st
  /\ s_presentationHelpDir after
     = if negb (str_empty named) && exists_ (disk st) (resolveAliasedPath named)
       then parent (resolveAliasedPath named)
       else s_presentationHelpDir st.
Proof.
  cbv zeta. unfold handlePresentationHelpRequest.
  destruct (negb (str_empty (queryParamValue request "file"))); cbn [andb].
  - destruct (exists_ _ _); cbn [negb]; [| now split].
    destruct (String.eqb _ _ || String.eqb _ _); [| now split].
    destruct (keeps_handlePresentationHelpMarkdownRequest
                (resolveAliasedPath (queryParamValue request "file")) jsCallbacks
                (mkPState (cache_ st) (s_cache st)
                   (parent (resolveAliasedPath (queryParamValue request "file")))
                   (disk st))) as [Hc Hd].
    now split.
  - destruct (negb (exists_ _ _)); now split.
Qed.

(** X25. After a help request that named an existing file which is not
    markdown, a help request without a file is resolved against the
    directory of that file, as long as the directory exists: the response is
    the file at the rest of the address under that directory. *)
Theorem help_relative_request_uses_saved_directory
    (request1 request2 : Request) (js1 js2 : string) (st : PState) :
  queryParamValue request1 "file" <> "" ->
  exists_ (disk st) (resolveAliasedPath (queryParamValue request1 "file")) = true ->
  mimeContentType (resolveAliasedPath (queryParamValue request1 "file"))
  <> "text/x-markdown" ->
  mimeContentType (resolveAliasedPath (queryParamValue request1 "file"))
  <> "text/x-r-markdown" ->
  queryParamValue request2 "file" = "" ->
  exists_ (disk st)
    (parent (resolveAliasedPath (queryParamValue request1 "file"))) = true ->
  fst (handlePresentationHelpRequest request2 js2
         (snd (handlePresentationHelpRequest request1 js1 st)))
  = [SetFile
       (complete (parent (resolveAliasedPath (queryParamValue request1 "file")))
                 (pathAfterPrefix request2 "/help/presentation/"))
       request2].
Proof.
  intros Hfile Hexists Hmd Hrmd Hnofile Hdir.
  unfold handlePresentationHelpRequest at 2.
  apply str_empty_false in Hfile. rewrite Hfile, Hexists.
  apply String.eqb_neq in Hmd, Hrmd. rewrite Hmd, Hrmd. cbn [negb orb snd].
  unfold handlePresentationHelpRequest. rewrite Hnofile.
  cbn [str_empty negb disk s_presentationHelpDir]. now rewrite Hdir.
Qed.

(** X26. When the presentation was read and the target file opened but the
    rendering throws, [createStandalonePresentation] fails without passing
    the message of the exception on: it goes to a local string, the message
    of the caller stays as it was, and [rs_createStandalonePresentation]
    writes just a newline to the console. *)
Theorem standalone_render_error_is_lost (st : PState) (what : string) :
  readOk (fst (readPresentation ∅ "" st)) = true ->
  (forall p d, fst (open_w p d) = None) ->
  (forall t v f, snd (renderTemplate t v f) = Some what) ->
  fst (fst (createStandalonePresentation
              (complete presentationDirectory (stem presentationDirectory +:+ ".html"))
              publishToRPubsVars "" st))
  = (false, "")
  /\ last (fst (rs_createStandalonePresentation st))
     = Some (ConsoleWriteErrorP newline).
Proof.
  intros Hread Hopen Hthrow.
  assert (Hcreate :
    fst (fst (createStandalonePresentation
                (complete presentationDirectory (stem presentationDirectory +:+ ".html"))
                publishToRPubsVars "" st)) = (false, "")).
  { unfold createStandalonePresentation. rewrite Hread. cbn [negb]. cbv zeta.
    rewrite Hopen. unfold renderPresentation. rewrite Hthrow. reflexivity. }
  split; [exact Hcreate |].
  unfold rs_createStandalonePresentation. cbv zeta.
  destruct (createStandalonePresentation _ _ _ _) as [[[flag msg] done] st'].
  cbn [fst snd] in *. injection Hcreate as -> ->. cbn [negb fst].
  now rewrite last_snoc.
Qed.

End Requests.

(** ** The hypotheses on a platform *)

Section OnSample.

Import Presentation.

Example strings_of_the_handlers :
  Str.replace_all_copy "a-b-c" "-" "+" = "a+b+c"
  /\ Str.replace_all_copy "aaa" "aa" "b" = "ba"
  /\ Str.replace_first_copy "a-b-c" "-" "+" = "a+b-c"
  /\ Str.trim_copy "  plot  " = "plot"
  /\ Str.find "a://b" "://" = Some 1
  /\ Str.find_first_of "help-doc:x" (ascii_of_nat 58) = Some 8
  /\ join ["a"; "b"; "c"] newline = "a" +:+ newline +:+ "b" +:+ newline +:+ "c".
Proof. repeat split; reflexivity. Qed.

Lemma performKnit_skips_newer_md_witness :
  exists_ (Platform := Sample.working) (Sample.diskWithRmd 5) "/pres/slides.md" = true
  /\ performKnit (P := Sample.working) "/pres/slides.Rmd" "" (Sample.diskWithRmd 5)
     = mkOutcome (P := Sample.working) true "" (Sample.diskWithRmd 5) [].
Proof.
  split; [reflexivity |].
  apply (performKnit_skips_newer_md (P := Sample.working)
           "/pres/slides.Rmd" "" (Sample.diskWithRmd 5)); reflexivity.
Defined.

Lemma performKnit_knits_md_of_same_age_witness :
  lastWriteTime (Platform := Sample.working) (Sample.diskWithRmd 10) "/pres/slides.md"
  = lastWriteTime (Platform := Sample.working) (Sample.diskWithRmd 10) "/pres/slides.Rmd"
  /\ diskAfter (performKnit (P := Sample.working) "/pres/slides.Rmd" ""
                  (Sample.diskWithRmd 10))
     = delete "/pres/slides.md" (Sample.diskWithRmd 10).
Proof.
  split; [reflexivity |].
  exact (proj2 (performKnit_knits_md_of_same_age (P := Sample.working)
                  "/pres/slides.Rmd" "" (Sample.diskWithRmd 10) "/usr/bin/Rscript"
                  ltac:(vm_compute; discriminate) eq_refl eq_refl)).
Defined.

Lemma performKnit_checks_tools_first_witness :
  rScriptPath (Platform := Sample.withoutR) (Sample.diskWithRmd 20) = inl "R was not found"
  /\ performKnit (P := Sample.withoutR) "/pres/slides.Rmd" "" (Sample.diskWithRmd 20)
     = mkOutcome (P := Sample.withoutR) false "R was not found"
                 (Sample.diskWithRmd 20) [].
Proof.
  split; [reflexivity |].
  exact (performKnit_checks_tools_first (P := Sample.withoutR)
           "/pres/slides.Rmd" "" (Sample.diskWithRmd 20) eq_refl I).
Defined.

Lemma range_cache_serves_unchanged_file_witness :
  lastWriteTime (Platform := Sample.working) Sample.diskChanged "/pres/movie.mp4"
  = lastWriteTime (Platform := Sample.working) Sample.disk0 "/pres/movie.mp4"
  /\ handleRangeRequest (P := Sample.working) "/pres/movie.mp4"
       Sample.movieRequest Sample.diskChanged
       (snd (handleRangeRequest (P := Sample.working) "/pres/movie.mp4"
               Sample.movieRequest Sample.disk0 clearedRangeFileCache))
     = ([SetRangeableFile
           (snd (readStringFromFile (Platform := Sample.working) Sample.disk0
                   "/pres/movie.mp4" ""))
           (mimeContentType (Platform := Sample.working) "/pres/movie.mp4")
           Sample.movieRequest],
        snd (handleRangeRequest (P := Sample.working) "/pres/movie.mp4"
               Sample.movieRequest Sample.disk0 clearedRangeFileCache)).
Proof.
  split; [vm_compute; reflexivity |].
  apply (range_cache_serves_unchanged_file (P := Sample.working));
    vm_compute; reflexivity.
Defined.

Lemma range_read_error_clears_cache_witness :
  fst (readStringFromFile (Platform := Sample.working) Sample.disk0 "/pres/none.mp4" "")
  = Some "cannot open file"
  /\ handleRangeRequest (P := Sample.working) "/pres/none.mp4" Sample.movieRequest
       Sample.disk0
       (mkRangeFileCache (mkFileInfo "/pres/movie.mp4" 20) "text/plain" "frames")
     = ([SetErrorFrom "cannot open file"], mkRangeFileCache (mkFileInfo "" 0) "" "").
Proof.
  split; [reflexivity |].
  exact (range_read_error_clears_cache (P := Sample.working) "/pres/none.mp4"
           Sample.movieRequest Sample.disk0
           (mkRangeFileCache (mkFileInfo "/pres/movie.mp4" 20) "text/plain" "frames")
           "cannot open file" eq_refl eq_refl).
Defined.

Lemma help_relative_request_uses_saved_directory_witness :
  queryParamValue Sample.helpRelativeRequest "file" = ""
  /\ fst (handlePresentationHelpRequest (P := Sample.working)
            Sample.helpRelativeRequest ""
            (snd (handlePresentationHelpRequest (P := Sample.working)
                    Sample.helpFileRequest "" Sample.state0)))
     = [SetFile "/pres/poster.png" Sample.helpRelativeRequest].
Proof.
  split; [reflexivity |].
  exact (help_relative_request_uses_saved_directory (P := Sample.working)
           Sample.helpFileRequest Sample.helpRelativeRequest "" "" Sample.state0
           ltac:(discriminate) eq_refl ltac:(vm_compute; discriminate)
           ltac:(vm_compute; discriminate) eq_refl eq_refl).
Defined.

Lemma standalone_render_error_is_lost_witness :
  readOk (fst (readPresentation (P := Sample.throwing) ∅ ""
                 (mkPState (P := Sample.throwing) ∅ clearedRangeFileCache ""
                           Sample.disk0))) = true
  /\ last (fst (rs_createStandalonePresentation (P := Sample.throwing)
                  (mkPState (P := Sample.throwing) ∅ clearedRangeFileCache ""
                            Sample.disk0)))
     = Some (ConsoleWriteErrorP newline).
Proof.
  split; [vm_compute; reflexivity |].
  exact (proj2 (standalone_render_error_is_lost (P := Sample.throwing)
                  (mkPState (P := Sample.throwing) ∅ clearedRangeFileCache ""
                            Sample.disk0)
                  "write failed" ltac:(vm_compute; reflexivity)
                  (fun _ _ => eq_refl) (fun _ _ _ => eq_refl))).
Defined.

End OnSample.
